(** * JSONPlaceholder API-testing notebook: client functions, tests and driver

    A shallow embedding of the code cells of [API_Testing_and_Automation.ipynb].
    The notebook's functions talk to the outside world (the HTTP service, the
    logging module, the console, a spawned pytest process) and may raise; they
    are embedded in a state-and-exception monad over a [World] record that
    holds the behaviour of the outside world and a trace of everything the
    program did to it. *)

From Stdlib Require Import ZArith Ascii String List Bool Lia.
From Stdlib Require Import DecimalString DecimalZ DecimalPos.
Import ListNotations.
Open Scope string_scope.
Open Scope Z_scope.

(** ** Python values

    The values that [response.json()] can produce and that [json=data] can
    send.  JSON numbers are restricted to integers; a dict is an association
    list in insertion order. *)

#[local] Set Warnings "-register-all".

Inductive JValue : Type :=
| JNull
| JBool (b : bool)
| JInt (z : Z)
| JStr (s : string)
| JList (l : list JValue)
| JDict (d : list (string * JValue)).

(** [str(n)] for an integer, as used by f-strings. *)
Definition str_Z (z : Z) : string := NilZero.string_of_int (Z.to_int z).

Fixpoint dict_get (d : list (string * JValue)) (k : string) : option JValue :=
  match d with
  | [] => None
  | (k', v) :: d' => if String.eqb k' k then Some v else dict_get d' k
  end.

Definition dict_keys (d : list (string * JValue)) : list string := map fst d.

(** [v == n] for an integer literal [n]: [bool] is a subclass of [int]. *)
Definition py_eq_int (v : JValue) (n : Z) : bool :=
  match v with
  | JInt z => z =? n
  | JBool b => (if b then 1 else 0) =? n
  | _ => false
  end.

(** [v == s] for a string literal [s]. *)
Definition py_eq_str (v : JValue) (s : string) : bool :=
  match v with
  | JStr s' => String.eqb s' s
  | _ => false
  end.

(** [isinstance(v, list)] *)
Definition isinstance_list (v : JValue) : bool :=
  match v with JList _ => true | _ => false end.

(** ** HTTP data *)

Inductive Method : Type := GET | POST | PUT | DELETE.

(** One call to [requests.get/post/put/delete]. *)
Record Request : Type := mkRequest {
  req_method : Method;
  req_url : string;
  req_json : option JValue
}.

(** A [requests.Response], with the attributes that the notebook and
    [raise_for_status] read.  [json_body] stands for the content: it is what
    [.json()] yields for it, the decoded value or, when the content is not
    JSON, the decoder's error message. *)
Record Response : Type := mkResponse {
  status_code : Z;
  reason : string;
  url : string;
  json_body : string + JValue
}.

(** ** Exceptions *)

Inductive ExnClass : Type :=
(* requests.exceptions: RequestException and its subclasses *)
| RequestException | HTTPError | ConnectionError | Timeout
| TooManyRedirects | InvalidURL | JSONDecodeError
(* builtins *)
| AssertionError | AttributeError | TypeError
| FileNotFoundError | KeyboardInterrupt.

(** [issubclass(c, requests.RequestException)] *)
Definition is_RequestException (c : ExnClass) : bool :=
  match c with
  | RequestException | HTTPError | ConnectionError | Timeout
  | TooManyRedirects | InvalidURL | JSONDecodeError => true
  | _ => false
  end.

Inductive Exn : Type :=
| Exc (c : ExnClass) (msg : string)
| CalledProcessError (returncode : Z) (cmd : list string)
                     (output stderr : option string).

(** [isinstance(e, requests.RequestException)] *)
Definition caught_by_RequestException (e : Exn) : bool :=
  match e with
  | Exc c _ => is_RequestException c
  | CalledProcessError _ _ _ _ => false
  end.

(** [isinstance(e, subprocess.CalledProcessError)] *)
Definition caught_by_CalledProcessError (e : Exn) : bool :=
  match e with
  | CalledProcessError _ _ _ _ => true
  | Exc _ _ => false
  end.

(** [str(e)], as interpolated by [f"...: {e}"]. *)
Definition str_Exn (e : Exn) : string :=
  match e with
  | Exc _ msg => msg
  | CalledProcessError rc _ _ _ =>
      (* the command line is left out of the text *)
      "Command returned non-zero exit status " ++ str_Z rc ++ "."
  end.

(** ** The outside world *)

(** What the HTTP library does with one call: it raises, or it hands back a
    response. *)
Inductive NetOutcome : Type :=
| NetRaise (e : Exn)
| NetReturn (r : Response).

(** What running a command does: the spawn itself raises (command not found),
    or the process runs to completion. *)
Inductive ProcOutcome : Type :=
| ProcRaise (e : Exn)
| ProcExit (returncode : Z) (out err : string).

Record CompletedProcess : Type := mkCompleted {
  cp_args : list string;
  cp_returncode : Z;
  cp_stdout : option string;
  cp_stderr : option string
}.

Record SpawnCall : Type := mkSpawn {
  sp_args : list string;
  sp_check : bool;
  sp_text : bool;
  sp_capture_output : bool
}.

(** Logging levels with Python's numeric values. *)
Inductive Level : Type := DEBUG | INFO | WARNING | ERROR | CRITICAL.

Definition levelno (l : Level) : Z :=
  match l with
  | DEBUG => 10 | INFO => 20 | WARNING => 30 | ERROR => 40 | CRITICAL => 50
  end.

Record LogRecord : Type := mkLog {
  levelname : Level;
  message : string
}.

(** An argument of [print]: a string, shown as it is, or a decoded JSON value. *)
Inductive PrintArg : Type :=
| PStr (s : string)
| PVal (v : JValue).

(** [network] answers a request given the requests made before it; [os_exec]
    is the behaviour of a command line.  The other fields are traces, oldest
    entry first: calls into the HTTP library, processes spawned, records
    emitted by the root logger, calls to [print]. *)
Record World : Type := mkWorld {
  network : list Request -> Request -> NetOutcome;
  os_exec : list string -> ProcOutcome;
  sent : list Request;
  spawned : list SpawnCall;
  log : list LogRecord;
  stdout : list (list PrintArg)
}.

Definition add_sent (q : Request) (w : World) : World :=
  mkWorld (network w) (os_exec w) (sent w ++ [q]) (spawned w) (log w) (stdout w).

Definition add_spawned (c : SpawnCall) (w : World) : World :=
  mkWorld (network w) (os_exec w) (sent w) (spawned w ++ [c]) (log w) (stdout w).

Definition add_log (r : LogRecord) (w : World) : World :=
  mkWorld (network w) (os_exec w) (sent w) (spawned w) (log w ++ [r]) (stdout w).

Definition add_stdout (l : list PrintArg) (w : World) : World :=
  mkWorld (network w) (os_exec w) (sent w) (spawned w) (log w) (stdout w ++ [l]).

(** ** The monad *)

Inductive Result (A : Type) : Type :=
| Ok (a : A)
| Raise (e : Exn).
Arguments Ok {A} a.
Arguments Raise {A} e.

Definition M (A : Type) : Type := World -> Result A * World.

Definition ret {A} (a : A) : M A := fun w => (Ok a, w).

Definition raise {A} (e : Exn) : M A := fun w => (Raise e, w).

Definition bind {A B} (m : M A) (k : A -> M B) : M B :=
  fun w =>
    match m w with
    | (Ok a, w') => k a w'
    | (Raise e, w') => (Raise e, w')
    end.

Notation "x <- m ;; k" := (bind m (fun x => k))
  (at level 61, m at next level, right associativity).
Notation "m ;;; k" := (bind m (fun _ => k))
  (at level 61, right associativity).

(** [try: body  except C as e: handler e], where [catches] is the
    [isinstance] test of the except clause. *)
Definition try_except {A} (body : M A) (catches : Exn -> bool)
                      (handler : Exn -> M A) : M A :=
  fun w =>
    match body w with
    | (Ok a, w') => (Ok a, w')
    | (Raise e, w') => if catches e then handler e w' else (Raise e, w')
    end.

(** [assert b] *)
Definition py_assert (b : bool) : M unit :=
  if b then ret tt else raise (Exc AssertionError "").

(** [o is not None] *)
Definition is_not_None {A} (o : option A) : bool :=
  match o with Some _ => true | None => false end.

(** Attribute access on a value that may be [None]. *)
Definition deref {A} (o : option A) : M A :=
  match o with
  | Some a => ret a
  | None => raise (Exc AttributeError "'NoneType' object has no attribute")
  end.

(** ** Library primitives *)

(** [print(a, b, ...)] *)
Definition print (args : list PrintArg) : M unit :=
  fun w => (Ok tt, add_stdout args w).

(** The root logger's threshold set by
    [logging.basicConfig(level=logging.INFO, ...)]. *)
Definition root_level : Level := INFO.

Definition logging_log (l : Level) (msg : string) : M unit :=
  fun w =>
    if levelno root_level <=? levelno l
    then (Ok tt, add_log (mkLog l msg) w)
    else (Ok tt, w).

(** [logging.error(msg)] *)
Definition logging_error (msg : string) : M unit := logging_log ERROR msg.

(** [requests.request(method, url, json=...)]: one call into the HTTP
    library, recorded in [sent]. *)
Definition requests_request (m : Method) (u : string) (j : option JValue)
  : M Response :=
  fun w =>
    let q := mkRequest m u j in
    match network w (sent w) q with
    | NetRaise e => (Raise e, add_sent q w)
    | NetReturn r => (Ok r, add_sent q w)
    end.

Definition requests_get (u : string) : M Response := requests_request GET u None.
Definition requests_post (u : string) (j : JValue) : M Response :=
  requests_request POST u (Some j).
Definition requests_put (u : string) (j : JValue) : M Response :=
  requests_request PUT u (Some j).
Definition requests_delete (u : string) : M Response :=
  requests_request DELETE u None.

(** The message of the [HTTPError] that [Response.raise_for_status] builds;
    empty when the status is no error. *)
Definition http_error_msg (r : Response) : string :=
  if (400 <=? status_code r) && (status_code r <? 500) then
    str_Z (status_code r) ++ " Client Error: " ++ reason r
      ++ " for url: " ++ url r
  else if (500 <=? status_code r) && (status_code r <? 600) then
    str_Z (status_code r) ++ " Server Error: " ++ reason r
      ++ " for url: " ++ url r
  else "".

(** [response.raise_for_status()]: raises [HTTPError] for a 4xx or 5xx status
    and does nothing otherwise. *)
Definition raise_for_status (r : Response) : M unit :=
  if (400 <=? status_code r) && (status_code r <? 500) then
    raise (Exc HTTPError (http_error_msg r))
  else if (500 <=? status_code r) && (status_code r <? 600) then
    raise (Exc HTTPError (http_error_msg r))
  else ret tt.

(** [response.json()] *)
Definition Response_json (r : Response) : M JValue :=
  match json_body r with
  | inr v => ret v
  | inl msg => raise (Exc JSONDecodeError msg)
  end.

(** [v.get(k)]: dict lookup with default [None]; other values have no [get]. *)
Definition py_get (v : JValue) (k : string) : M JValue :=
  match v with
  | JDict d => ret (match dict_get d k with Some x => x | None => JNull end)
  | _ => raise (Exc AttributeError "object has no attribute 'get'")
  end.

(** [len(v)] *)
Definition py_len (v : JValue) : M Z :=
  match v with
  | JList l => ret (Z.of_nat (List.length l))
  | JDict d => ret (Z.of_nat (List.length d))
  | JStr s => ret (Z.of_nat (String.length s))
  | _ => raise (Exc TypeError "object has no len()")
  end.

(** [subprocess.run(args, check=..., text=..., capture_output=...)] *)
Definition subprocess_run (args : list string)
                          (check text capture_output : bool)
  : M CompletedProcess :=
  fun w =>
    let w' := add_spawned (mkSpawn args check text capture_output) w in
    match os_exec w args with
    | ProcRaise e => (Raise e, w')
    | ProcExit rc out err =>
        let o := if capture_output then Some out else None in
        let e := if capture_output then Some err else None in
        if check && negb (rc =? 0)
        then (Raise (CalledProcessError rc args o e), w')
        else (Ok (mkCompleted args rc o e), w')
    end.

(** [print(s)] for a captured stream, which is [None] when not captured. *)
Definition print_stream (s : option string) : M unit :=
  match s with
  | Some t => print [PStr t]
  | None => print [PVal JNull]
  end.

(** ** The notebook: API functions *)

Definition BASE_URL : string := "https://jsonplaceholder.typicode.com".

Definition get_posts : M (option Response) :=
  try_except
    (response <- requests_get (BASE_URL ++ "/posts") ;;
     raise_for_status response ;;;
     ret (Some response))
    caught_by_RequestException
    (fun e =>
       logging_error ("Failed to retrieve posts: " ++ str_Exn e) ;;;
       ret None).

Definition get_post_by_id (post_id : Z) : M (option Response) :=
  try_except
    (response <- requests_get (BASE_URL ++ "/posts/" ++ str_Z post_id) ;;
     raise_for_status response ;;;
     ret (Some response))
    caught_by_RequestException
    (fun e =>
       logging_error ("Failed to retrieve post with ID " ++ str_Z post_id
                        ++ ": " ++ str_Exn e) ;;;
       ret None).

Definition get_post_comments (post_id : Z) : M (option Response) :=
  try_except
    (response <- requests_get
                   (BASE_URL ++ "/posts/" ++ str_Z post_id ++ "/comments") ;;
     raise_for_status response ;;;
     ret (Some response))
    caught_by_RequestException
    (fun e =>
       logging_error ("Failed to retrieve comments for post ID "
                        ++ str_Z post_id ++ ": " ++ str_Exn e) ;;;
       ret None).

Definition post_post : M (option Response) :=
  let data := JDict [("title", JStr "foo"); ("body", JStr "bar");
                     ("userId", JInt 1)] in
  try_except
    (response <- requests_post (BASE_URL ++ "/posts") data ;;
     raise_for_status response ;;;
     ret (Some response))
    caught_by_RequestException
    (fun e =>
       logging_error ("Failed to create post: " ++ str_Exn e) ;;;
       ret None).

Definition put_post (post_id : Z) : M (option Response) :=
  let data := JDict [("title", JStr "foo"); ("body", JStr "bar updated");
                     ("userId", JInt 1)] in
  try_except
    (response <- requests_put (BASE_URL ++ "/posts/" ++ str_Z post_id) data ;;
     raise_for_status response ;;;
     ret (Some response))
    caught_by_RequestException
    (fun e =>
       logging_error ("Failed to update post with ID " ++ str_Z post_id
                        ++ ": " ++ str_Exn e) ;;;
       ret None).

Definition delete_post (post_id : Z) : M (option Response) :=
  try_except
    (response <- requests_delete (BASE_URL ++ "/posts/" ++ str_Z post_id) ;;
     raise_for_status response ;;;
     ret (Some response))
    caught_by_RequestException
    (fun e =>
       logging_error ("Failed to delete post with ID " ++ str_Z post_id
                        ++ ": " ++ str_Exn e) ;;;
       ret None).

(** ** The notebook: test cases *)

Definition test_get_posts : M unit :=
  print [PStr "Running test_get_posts"] ;;;
  response <- get_posts ;;
  py_assert (is_not_None response) ;;;
  r <- deref response ;;
  py_assert (status_code r =? 200) ;;;
  v <- Response_json r ;;
  py_assert (isinstance_list v) ;;;
  v' <- Response_json r ;;
  n <- py_len v' ;;
  py_assert (0 <? n).

Definition test_get_post_by_id : M unit :=
  print [PStr "Running test_get_post_by_id"] ;;;
  response <- get_post_by_id 1 ;;
  py_assert (is_not_None response) ;;;
  r <- deref response ;;
  py_assert (status_code r =? 200) ;;;
  v <- Response_json r ;;
  x <- py_get v "id" ;;
  py_assert (py_eq_int x 1).

Definition test_post_post : M unit :=
  print [PStr "Running test_post_post"] ;;;
  response <- post_post ;;
  py_assert (is_not_None response) ;;;
  r <- deref response ;;
  py_assert (status_code r =? 201) ;;;
  v <- Response_json r ;;
  x <- py_get v "title" ;;
  py_assert (py_eq_str x "foo").

Definition test_put_post : M unit :=
  print [PStr "Running test_put_post"] ;;;
  response <- put_post 1 ;;
  py_assert (is_not_None response) ;;;
  r <- deref response ;;
  py_assert (status_code r =? 200) ;;;
  v <- Response_json r ;;
  x <- py_get v "body" ;;
  py_assert (py_eq_str x "bar updated").

Definition test_delete_post : M unit :=
  print [PStr "Running test_delete_post"] ;;;
  delete_response <- delete_post 1 ;;
  py_assert (is_not_None delete_response) ;;;
  dr <- deref delete_response ;;
  py_assert (status_code dr =? 200) ;;;
  get_response <- get_post_by_id 1 ;;
  (match get_response with
   | Some gr =>
       print [PStr ("Status code after deletion attempt: "
                      ++ str_Z (status_code gr))] ;;;
       v <- Response_json gr ;;
       print [PStr "Response content:"; PVal v]
   | None => ret tt
   end) ;;;
  py_assert (is_not_None get_response).

(** ** The notebook: automation code *)

Definition run_tests : M unit :=
  try_except
    (result <- subprocess_run
                 ["pytest"; "--maxfail=1"; "--disable-warnings"; "-q"]
                 (* check *) true (* text *) true (* capture_output *) true ;;
     print [PStr "Test Results:"] ;;;
     print_stream (cp_stdout result))
    caught_by_CalledProcessError
    (fun e =>
       print [PStr "Tests failed:"] ;;;
       print [PStr "Standard Output:"] ;;;
       match e with
       | CalledProcessError _ _ out err =>
           print_stream out ;;;
           print [PStr "Standard Error:"] ;;;
           print_stream err
       | Exc _ _ => raise (Exc AttributeError "stdout")
       end).

(** The last code cell: the tests called one after the other. *)
Definition run_individual_tests : M unit :=
  test_get_posts ;;;
  test_get_post_by_id ;;;
  test_post_post ;;;
  test_put_post ;;;
  test_delete_post ;;;
  print [PStr "All tests executed."].

(** ** The six operations as one family *)

Inductive Op : Type :=
| FetchCollection
| FetchOne (post_id : Z)
| FetchComments (post_id : Z)
| Create
| Update (post_id : Z)
| Delete (post_id : Z).

(** The notebook function behind each operation. *)
Definition call (o : Op) : M (option Response) :=
  match o with
  | FetchCollection => get_posts
  | FetchOne post_id => get_post_by_id post_id
  | FetchComments post_id => get_post_comments post_id
  | Create => post_post
  | Update post_id => put_post post_id
  | Delete post_id => delete_post post_id
  end.

(** The post identifier an operation takes, if it takes one. *)
Definition op_post_id (o : Op) : option Z :=
  match o with
  | FetchCollection | Create => None
  | FetchOne i | FetchComments i | Update i | Delete i => Some i
  end.

(** *** The route table of the specification

    Method, path and payload per operation, written from the table of the
    wire protocol; [route] is the request the table prescribes. *)

Definition route_method (o : Op) : Method :=
  match o with
  | FetchCollection | FetchOne _ | FetchComments _ => GET
  | Create => POST
  | Update _ => PUT
  | Delete _ => DELETE
  end.

Definition route_path (o : Op) : string :=
  match o with
  | FetchCollection | Create => "/posts"
  | FetchOne i | Update i | Delete i => "/posts/" ++ str_Z i
  | FetchComments i => "/posts/" ++ str_Z i ++ "/comments"
  end.

Definition route_payload (o : Op) : option JValue :=
  match o with
  | Create =>
      Some (JDict [("title", JStr "foo"); ("body", JStr "bar");
                   ("userId", JInt 1)])
  | Update _ =>
      Some (JDict [("title", JStr "foo"); ("body", JStr "bar updated");
                   ("userId", JInt 1)])
  | _ => None
  end.

Definition route (o : Op) : Request :=
  mkRequest (route_method o) (BASE_URL ++ route_path o) (route_payload o).

(** The keys of a request's JSON payload, in order. *)
Definition payload_keys (q : Request) : option (list string) :=
  match req_json q with
  | Some (JDict d) => Some (dict_keys d)
  | Some _ => Some []
  | None => None
  end.

(** The wording with which each operation reports a failure, up to the
    colon that precedes the exception text. *)
Definition failure_text (o : Op) : string :=
  match o with
  | FetchCollection => "Failed to retrieve posts"
  | FetchOne i => "Failed to retrieve post with ID " ++ str_Z i
  | FetchComments i => "Failed to retrieve comments for post ID " ++ str_Z i
  | Create => "Failed to create post"
  | Update i => "Failed to update post with ID " ++ str_Z i
  | Delete i => "Failed to delete post with ID " ++ str_Z i
  end.

(** *** Outcomes of the single request *)

(** The statuses for which [raise_for_status] raises. *)
Definition error_status (s : Z) : bool :=
  ((400 <=? s) && (s <? 500)) || ((500 <=? s) && (s <? 600)).

(** The specification's notion of success: a status in the 2xx range. *)
Definition is_2xx (s : Z) : bool := (200 <=? s) && (s <? 300).

(** The answer of the outside world to the request that operation [o] makes
    in world [w]. *)
Definition answer (o : Op) (w : World) : NetOutcome :=
  network w (sent w) (route o).

(** The text of the request-family exception that the [try] block of an
    operation ends with, if it ends with one: the library's own exception
    for a network-layer failure, or the [HTTPError] of [raise_for_status]. *)
Definition request_failure (a : NetOutcome) : option string :=
  match a with
  | NetRaise e => if caught_by_RequestException e then Some (str_Exn e) else None
  | NetReturn r => if error_status (status_code r) then Some (http_error_msg r)
                   else None
  end.

(** The world after operation [o] reported a failure with exception text
    [msg]: one request more, one ERROR record more. *)
Definition after_failure (o : Op) (msg : string) (w : World) : World :=
  add_log (mkLog ERROR (failure_text o ++ ": " ++ msg)) (add_sent (route o) w).

(** [t w] ran to its end without raising. *)
Definition passes {A} (r : Result A * World) : Prop :=
  exists a, fst r = Ok a.

(** The requests that [m] makes when run in [w]. *)
Definition new_requests {A} (m : M A) (w : World) : list Request :=
  skipn (List.length (sent w)) (sent (snd (m w))).

(** The records that [m] logs when run in [w]. *)
Definition new_log {A} (m : M A) (w : World) : list LogRecord :=
  skipn (List.length (log w)) (log (snd (m w))).

(** ** The five test cases as one family *)

Inductive TestCase : Type :=
| TGetPosts | TGetPostById | TPostPost | TPutPost | TDeletePost.

Definition run_test (t : TestCase) : M unit :=
  match t with
  | TGetPosts => test_get_posts
  | TGetPostById => test_get_post_by_id
  | TPostPost => test_post_post
  | TPutPost => test_put_post
  | TDeletePost => test_delete_post
  end.

(** The operation whose result a test checks first. *)
Definition test_op (t : TestCase) : Op :=
  match t with
  | TGetPosts => FetchCollection
  | TGetPostById => FetchOne 1
  | TPostPost => Create
  | TPutPost => Update 1
  | TDeletePost => Delete 1
  end.

(** The expected status per operation, from the specification's table. *)
Definition expected_status (t : TestCase) : Z :=
  match t with
  | TPostPost => 201
  | _ => 200
  end.

(** Field [k] of a response whose content decodes to a JSON object. *)
Definition body_field (r : Response) (k : string) : option JValue :=
  match json_body r with
  | inr (JDict d) => dict_get d k
  | _ => None
  end.

(** The body check of each test as the specification words it: a non-empty
    list, id equal to 1, and for each of the three mutations a title or body
    field (for delete, which sends no payload, the weakest reading: some
    title or body field is there to be checked). *)
Definition stated_body_check (t : TestCase) (r : Response) : Prop :=
  match t with
  | TGetPosts => exists l, json_body r = inr (JList l) /\ l <> []
  | TGetPostById => exists x, body_field r "id" = Some x /\ py_eq_int x 1 = true
  | TPostPost =>
      body_field r "title" = Some (JStr "foo")
      \/ body_field r "body" = Some (JStr "bar")
  | TPutPost =>
      body_field r "title" = Some (JStr "foo")
      \/ body_field r "body" = Some (JStr "bar updated")
  | TDeletePost =>
      exists x, body_field r "title" = Some x \/ body_field r "body" = Some x
  end.

(** The body check that each test function makes. *)
Definition asserted_body_check (t : TestCase) (r : Response) : Prop :=
  match t with
  | TGetPosts => exists l, json_body r = inr (JList l) /\ l <> []
  | TGetPostById => exists x, body_field r "id" = Some x /\ py_eq_int x 1 = true
  | TPostPost => body_field r "title" = Some (JStr "foo")
  | TPutPost => body_field r "body" = Some (JStr "bar updated")
  | TDeletePost => True
  end.

(** The world in which the delete test makes its follow-up fetch. *)
Definition after_delete (w : World) : World := add_sent (route (Delete 1)) w.

(** The command line of [run_tests]. *)
Definition pytest_cmd : list string :=
  ["pytest"; "--maxfail=1"; "--disable-warnings"; "-q"].

(** ** Some worlds *)

Definition initial (net : list Request -> Request -> NetOutcome)
                   (os : list string -> ProcOutcome) : World :=
  mkWorld net os [] [] [] [].

(** The pytest run recorded in the notebook: nothing collected, exit status 5. *)
Definition no_tests_ran : list string -> ProcOutcome :=
  fun _ => ProcExit 5 "no tests ran in 1.14s" "".

(** No route to the service. *)
Definition unreachable : World :=
  initial (fun _ _ => NetRaise (Exc ConnectionError "Max retries exceeded"))
          no_tests_ran.

Definition post_1 : JValue :=
  JDict [("userId", JInt 1); ("id", JInt 1);
         ("title", JStr "sunt aut facere"); ("body", JStr "quia et suscipit")].

(** A service in the manner of JSONPlaceholder: it answers every mutation
    with success and keeps its records as they are. *)
Definition placeholder_service (_ : list Request) (q : Request) : NetOutcome :=
  let u := req_url q in
  match req_method q with
  | GET =>
      if String.eqb u (BASE_URL ++ "/posts")
      then NetReturn (mkResponse 200 "OK" u (inr (JList [post_1])))
      else if String.eqb u (BASE_URL ++ "/posts/1")
      then NetReturn (mkResponse 200 "OK" u (inr post_1))
      else NetReturn (mkResponse 404 "Not Found" u (inr (JDict [])))
  | POST =>
      match req_json q with
      | Some (JDict d) =>
          NetReturn (mkResponse 201 "Created" u
                       (inr (JDict (d ++ [("id", JInt 101)]))))
      | _ => NetReturn (mkResponse 201 "Created" u
                          (inr (JDict [("id", JInt 101)])))
      end
  | PUT =>
      match req_json q with
      | Some (JDict d) =>
          NetReturn (mkResponse 200 "OK" u (inr (JDict (d ++ [("id", JInt 1)]))))
      | _ => NetReturn (mkResponse 200 "OK" u (inr (JDict [("id", JInt 1)])))
      end
  | DELETE => NetReturn (mkResponse 200 "OK" u (inr (JDict [])))
  end.

Definition placeholder : World := initial placeholder_service no_tests_ran.

(** A service down for maintenance. *)
Definition unavailable : World :=
  initial (fun _ q => NetReturn (mkResponse 503 "Service Unavailable"
                                   (req_url q) (inl "Expecting value")))
          no_tests_ran.

(** A service that answers every request with 304 and no content. *)
Definition not_modified (u : string) : Response :=
  mkResponse 304 "Not Modified" u (inl "Expecting value").

Definition cached : World :=
  initial (fun _ q => NetReturn (not_modified (req_url q))) no_tests_ran.

(** A service that answers DELETE with 200 and no content, and every other
    request with 200 and an empty JSON object. *)
Definition deleted_no_content (u : string) : Response :=
  mkResponse 200 "OK" u (inl "Expecting value").

Definition bare_service (_ : list Request) (q : Request) : NetOutcome :=
  match req_method q with
  | DELETE => NetReturn (deleted_no_content (req_url q))
  | _ => NetReturn (mkResponse 200 "OK" (req_url q) (inr (JDict [])))
  end.

Definition bare : World := initial bare_service no_tests_ran.

(** A service behind a proxy that answers 200 with an HTML page. *)
Definition html_page (u : string) : Response :=
  mkResponse 200 "OK" u (inl "Expecting value: line 1 column 1 (char 0)").

Definition proxied : World :=
  initial (fun _ q => NetReturn (html_page (req_url q))) no_tests_ran.

(** A user interrupt during the request. *)
Definition interrupted : World :=
  initial (fun _ _ => NetRaise (Exc KeyboardInterrupt "")) no_tests_ran.

(** A pytest run in which every test passed. *)
Definition all_green : World :=
  initial placeholder_service (fun _ => ProcExit 0 "5 passed in 1.02s" "").

(** A service behind a transforming proxy: DELETE is answered with 200, every
    other request with 203 and the record. *)
Definition via_proxy_service (_ : list Request) (q : Request) : NetOutcome :=
  match req_method q with
  | DELETE => NetReturn (mkResponse 200 "OK" (req_url q) (inr (JDict [])))
  | _ => NetReturn (mkResponse 203 "Non-Authoritative Information"
                      (req_url q) (inr post_1))
  end.

Definition via_proxy : World := initial via_proxy_service no_tests_ran.

(** ** Two sentences of the specification, as it words them *)

(** "For every response whose status code is not in the 2xx range, the
    operation yields the failure marker", for operation [o] in world [w]. *)
Definition non_2xx_yields_null (o : Op) (w : World) : Prop :=
  forall r, answer o w = NetReturn r ->
            is_2xx (status_code r) = false ->
            fst (call o w) = Ok None.

(** "Every test asserts non-null, the expected status, and a field of the
    body", for test [t] in world [w]: a run that passes has met all three. *)
Definition asserts_status_and_body (t : TestCase) (w : World) : Prop :=
  passes (run_test t w) ->
  exists r, fst (call (test_op t) w) = Ok (Some r)
            /\ status_code r = expected_status t
            /\ stated_body_check t r.

(** ** Further vocabulary for the tests and the drivers *)

(** What [m] prints when run in [w]. *)
Definition new_stdout {A} (m : M A) (w : World) : list (list PrintArg) :=
  skipn (List.length (stdout w)) (stdout (snd (m w))).

(** The processes that [m] spawns when run in [w]. *)
Definition new_spawned {A} (m : M A) (w : World) : list SpawnCall :=
  skipn (List.length (spawned w)) (spawned (snd (m w))).

(** The line a test prints first. *)
Definition test_banner (t : TestCase) : string :=
  match t with
  | TGetPosts => "Running test_get_posts"
  | TGetPostById => "Running test_get_post_by_id"
  | TPostPost => "Running test_post_post"
  | TPutPost => "Running test_put_post"
  | TDeletePost => "Running test_delete_post"
  end.


(** Whether a string contains the path separator. *)
Fixpoint has_slash (s : string) : bool :=
  match s with
  | EmptyString => false
  | String c s' => Ascii.eqb c "/"%char || has_slash s'
  end.

(** Python spawning a command that is not installed. *)
Definition no_pytest : World :=
  initial placeholder_service
    (fun _ => ProcRaise (Exc FileNotFoundError
                           "[Errno 2] No such file or directory: 'pytest'")).


(** A service whose every answer is an empty JSON object. *)
Definition empty_objects : World :=
  initial (fun _ q => NetReturn (mkResponse (match req_method q with
                                             | POST => 201 | _ => 200 end)
                                   "OK" (req_url q) (inr (JDict []))))
          no_tests_ran.

(** A service that accepts the DELETE and then reports the record gone. *)
Definition really_deletes_service (h : list Request) (q : Request)
  : NetOutcome :=
  match req_method q with
  | GET =>
      if existsb (fun p => match req_method p with
                           | DELETE => String.eqb (req_url p) (req_url q)
                           | _ => false
                           end) h
      then NetReturn (mkResponse 404 "Not Found" (req_url q) (inr (JDict [])))
      else placeholder_service h q
  | _ => placeholder_service h q
  end.

Definition really_deletes : World := initial really_deletes_service no_tests_ran.

(** The requests of a test that passes. *)
Definition passing_requests (t : TestCase) : list Request :=
  match t with
  | TDeletePost => [route (Delete 1); route (FetchOne 1)]
  | _ => [route (test_op t)]
  end.

(** The line that the last cell prints after the five tests. *)
Definition completion_line : list PrintArg := [PStr "All tests executed."].

(** Whether the delete test goes on to its follow-up fetch. *)
Definition delete_accepted (w : World) : bool :=
  match fst (call (Delete 1) w) with
  | Ok (Some dr) => status_code dr =? 200
  | _ => false
  end.

(** What holds of the rest of the direct run from any test onwards: it logs
    at most once, and only on its way to an AssertionError; it prints the
    completion line only when it reaches its end. *)
Definition fails_fast (m : M unit) : Prop :=
  forall w,
    log (snd (m w)) = (log w ++ new_log m w)%list
    /\ stdout (snd (m w)) = (stdout w ++ new_stdout m w)%list
    /\ (List.length (new_log m w) <= 1)%nat
    /\ (new_log m w <> [] -> fst (m w) = Raise (Exc AssertionError ""))
    /\ (passes (m w) -> new_log m w = [])
    /\ (In completion_line (new_stdout m w) -> passes (m w)).

(** The requests of a direct run in which every test passes. *)
Definition full_run_requests : list Request :=
  [route FetchCollection; route (FetchOne 1); route Create;
   route (Update 1); route (Delete 1); route (FetchOne 1)].

(** What holds of the rest of the direct run from any test onwards, for the
    requests [l] it makes when every test passes: in every world it makes a
    non-empty initial part of them. *)
Definition requests_within (m : M unit) (l : list Request) : Prop :=
  forall w,
    sent (snd (m w)) = (sent w ++ new_requests m w)%list
    /\ exists rest, l = (new_requests m w ++ rest)%list.

(** * Proofs *)

(** ** Strings and numbers *)

Lemma append_assoc (a b c : string) : (a ++ b) ++ c = a ++ (b ++ c).
Proof.
  induction a as [| ch a IH]; simpl.
  - reflexivity.
  - now rewrite IH.
Qed.

Lemma to_int_proper (z : Z) :
  Z.to_int z <> Decimal.Pos Decimal.Nil /\ Z.to_int z <> Decimal.Neg Decimal.Nil.
Proof.
  destruct z as [| p | p]; simpl; split; try discriminate;
    intros [= H]; now apply (Unsigned.to_uint_nonnil p).
Qed.

Lemma str_Z_inj (a b : Z) : str_Z a = str_Z b -> a = b.
Proof.
  unfold str_Z. intros H.
  apply DecimalZ.to_int_inj.
  destruct (to_int_proper a) as [Ha1 Ha2].
  destruct (to_int_proper b) as [Hb1 Hb2].
  pose proof (NilZero.isi _ Ha1 Ha2) as Ea.
  pose proof (NilZero.isi _ Hb1 Hb2) as Eb.
  rewrite H in Ea. rewrite Ea in Eb. now injection Eb.
Qed.

(** Distinct operations, or one operation on distinct posts, report
    failures with distinct wordings. *)
Lemma failure_text_inj (o o' : Op) : failure_text o = failure_text o' -> o = o'.
Proof.
  destruct o, o'; simpl; intros H; try discriminate H; try reflexivity;
    injection H as H; apply str_Z_inj in H; now subst.
Qed.

(** ** One operation, step by step *)

Lemma error_status_range (s : Z) :
  error_status s = true <-> 400 <= s < 600.
Proof.
  unfold error_status.
  rewrite orb_true_iff, !andb_true_iff, !Z.leb_le, !Z.ltb_lt. lia.
Qed.

Lemma raise_for_status_eq (r : Response) (w : World) :
  raise_for_status r w =
  if error_status (status_code r)
  then (Raise (Exc HTTPError (http_error_msg r)), w)
  else (Ok tt, w).
Proof.
  unfold raise_for_status, error_status.
  destruct ((400 <=? status_code r) && (status_code r <? 500)); simpl.
  - reflexivity.
  - destruct ((500 <=? status_code r) && (status_code r <? 600)); reflexivity.
Qed.

(** What every operation does, by the answer to its one request. *)
Lemma call_eq (o : Op) (w : World) :
  call o w =
  match answer o w with
  | NetRaise e =>
      if caught_by_RequestException e
      then (Ok None, after_failure o (str_Exn e) w)
      else (Raise e, add_sent (route o) w)
  | NetReturn r =>
      if error_status (status_code r)
      then (Ok None, after_failure o (http_error_msg r) w)
      else (Ok (Some r), add_sent (route o) w)
  end.
Proof.
  destruct o; unfold call, answer, after_failure;
    cbv [get_posts get_post_by_id get_post_comments post_post put_post
         delete_post try_except bind requests_get requests_post requests_put
         requests_delete requests_request route route_method route_path
         route_payload failure_text];
    rewrite ?append_assoc;
    (match goal with
     | |- context [network w (sent w) ?q] => destruct (network w (sent w) q) as [e | r]
     end);
    try (destruct (caught_by_RequestException e); reflexivity);
    rewrite raise_for_status_eq;
    destruct (error_status (status_code r)); reflexivity.
Qed.

Lemma skipn_length_app {A} (l l' : list A) :
  skipn (List.length l) (l ++ l') = l'.
Proof.
  induction l as [| x l IH]; simpl.
  - reflexivity.
  - exact IH.
Qed.

Lemma call_sent (o : Op) (w : World) :
  sent (snd (call o w)) = (sent w ++ [route o])%list.
Proof.
  rewrite call_eq.
  destruct (answer o w) as [e | r].
  - destruct (caught_by_RequestException e); reflexivity.
  - destruct (error_status (status_code r)); reflexivity.
Qed.

Lemma new_requests_call (o : Op) (w : World) :
  new_requests (call o) w = [route o].
Proof.
  unfold new_requests. rewrite call_sent. apply skipn_length_app.
Qed.

(** A failed operation: null result, one request, one ERROR record. *)
Lemma call_failure (o : Op) (w : World) (msg : string) :
  request_failure (answer o w) = Some msg ->
  call o w = (Ok None, after_failure o msg w).
Proof.
  intros H. rewrite call_eq.
  unfold request_failure in H.
  destruct (answer o w) as [e | r].
  - destruct (caught_by_RequestException e); [| discriminate H].
    now injection H as <-.
  - destruct (error_status (status_code r)); [| discriminate H].
    now injection H as <-.
Qed.

(** A response without an error status is handed to the caller as it is. *)
Lemma call_success (o : Op) (w : World) (r : Response) :
  answer o w = NetReturn r ->
  error_status (status_code r) = false ->
  call o w = (Ok (Some r), add_sent (route o) w).
Proof.
  intros Ha Hs. rewrite call_eq, Ha, Hs. reflexivity.
Qed.

Lemma is_2xx_not_error (s : Z) : is_2xx s = true -> error_status s = false.
Proof.
  unfold is_2xx. rewrite andb_true_iff, Z.leb_le, Z.ltb_lt. intros H.
  destruct (error_status s) eqn:E; [| reflexivity].
  apply error_status_range in E. lia.
Qed.

(** ** The claims *)

(** C1. Whenever the single request of a Resource Client operation ends in a
    network-layer exception of the HTTP library or in an HTTP error status,
    the operation returns normally with a null result, the log grows by
    exactly one ERROR record, and the text of that record is the failure
    wording of the operation (with the post identifier, when it takes one),
    a colon, and the exception's text; the wording determines the operation
    and the identifier. *)
Theorem client_failure_is_logged_null (o : Op) (w : World) (msg : string) :
  request_failure (answer o w) = Some msg ->
  fst (call o w) = Ok None
  /\ new_log (call o) w = [mkLog ERROR (failure_text o ++ ": " ++ msg)]
  /\ (forall o', failure_text o' = failure_text o ->
                 o' = o /\ op_post_id o' = op_post_id o).
Proof.
  intros H. unfold new_log. rewrite (call_failure o w msg H).
  split; [reflexivity |]. split.
  - unfold after_failure. simpl. apply skipn_length_app.
  - intros o' E. apply failure_text_inj in E. now subst.
Qed.

Lemma client_failure_is_logged_null_witness :
  request_failure (answer (FetchOne 7) unreachable) = Some "Max retries exceeded"
  /\ fst (call (FetchOne 7) unreachable) = Ok None
  /\ new_log (call (FetchOne 7)) unreachable =
       [mkLog ERROR "Failed to retrieve post with ID 7: Max retries exceeded"].
Proof.
  split; [reflexivity |].
  destruct (client_failure_is_logged_null (FetchOne 7) unreachable
              "Max retries exceeded" eq_refl) as (H1 & H2 & _).
  split; [exact H1 | exact H2].
Defined.

(** C2, as the specification words it, fails: a response with status 304 is
    outside the 2xx range, yet fetching the collection hands it to the caller
    and logs nothing. *)
Lemma status_304_is_returned :
  answer FetchCollection cached =
    NetReturn (not_modified "https://jsonplaceholder.typicode.com/posts")
  /\ is_2xx 304 = false
  /\ call FetchCollection cached =
       (Ok (Some (not_modified "https://jsonplaceholder.typicode.com/posts")),
        add_sent (route FetchCollection) cached)
  /\ ~ non_2xx_yields_null FetchCollection cached.
Proof.
  split; [reflexivity |]. split; [reflexivity |]. split; [reflexivity |].
  intros H.
  specialize (H (not_modified "https://jsonplaceholder.typicode.com/posts")
                eq_refl eq_refl).
  discriminate H.
Qed.

(** C2, amended. For every operation and every response to its request: if
    the status code is in 400..599 the operation logs exactly one ERROR
    record and returns null; for every other status code, the 2xx codes
    among them, it returns the response itself and logs nothing. *)
Theorem error_status_yields_null (o : Op) (w : World) (r : Response) :
  answer o w = NetReturn r ->
  (400 <= status_code r < 600 ->
     fst (call o w) = Ok None
     /\ new_log (call o) w =
          [mkLog ERROR (failure_text o ++ ": " ++ http_error_msg r)])
  /\ (~ 400 <= status_code r < 600 ->
        fst (call o w) = Ok (Some r) /\ new_log (call o) w = [])
  /\ (200 <= status_code r < 300 -> fst (call o w) = Ok (Some r)).
Proof.
  intros Ha. unfold new_log. rewrite call_eq, Ha.
  destruct (error_status (status_code r)) eqn:E.
  - apply error_status_range in E.
    split; [| split]; [intros _ | intros N; contradiction | intros R; lia].
    split; [reflexivity |]. unfold after_failure. simpl.
    apply skipn_length_app.
  - assert (N : ~ 400 <= status_code r < 600).
    { intros R. apply error_status_range in R. congruence. }
    split; [| split]; [intros R; contradiction | intros _ | reflexivity].
    split; [reflexivity |]. simpl. apply skipn_all.
Qed.

Lemma error_status_yields_null_witness :
  (fst (call (FetchOne 1) unavailable) = Ok None
   /\ new_log (call (FetchOne 1)) unavailable =
        [mkLog ERROR
           ("Failed to retrieve post with ID 1: 503 Server Error: "
            ++ "Service Unavailable for url: "
            ++ "https://jsonplaceholder.typicode.com/posts/1")])
  /\ (fst (call (FetchOne 1) cached) =
        Ok (Some (not_modified "https://jsonplaceholder.typicode.com/posts/1"))
      /\ new_log (call (FetchOne 1)) cached = [])
  /\ fst (call (FetchOne 1) placeholder) =
       Ok (Some (mkResponse 200 "OK"
                   "https://jsonplaceholder.typicode.com/posts/1" (inr post_1))).
Proof.
  split; [| split].
  - apply (error_status_yields_null (FetchOne 1) unavailable _ eq_refl).
    simpl. lia.
  - apply (error_status_yields_null (FetchOne 1) cached _ eq_refl).
    simpl. lia.
  - apply (error_status_yields_null (FetchOne 1) placeholder _ eq_refl).
    simpl. lia.
Defined.

(** C6. Every 2xx response is returned to the caller as the very object the
    HTTP call produced, and whatever non-null value an operation returns is
    that object: the client alters, removes and adds nothing, and the only
    other trace the call leaves is its one request. *)
Theorem success_returns_envelope_unmodified (o : Op) (w : World) :
  (forall r, answer o w = NetReturn r ->
             is_2xx (status_code r) = true ->
             call o w = (Ok (Some r), add_sent (route o) w))
  /\ (forall r', fst (call o w) = Ok (Some r') ->
                 answer o w = NetReturn r'
                 /\ snd (call o w) = add_sent (route o) w).
Proof.
  split.
  - intros r Ha H2. apply call_success; [exact Ha |].
    now apply is_2xx_not_error.
  - intros r'. rewrite call_eq.
    destruct (answer o w) as [e | r].
    + destruct (caught_by_RequestException e); discriminate.
    + destruct (error_status (status_code r)); [discriminate |].
      simpl. intros [= ->]. split; reflexivity.
Qed.

Lemma success_returns_envelope_unmodified_witness :
  call Create placeholder =
    (Ok (Some (mkResponse 201 "Created"
                 "https://jsonplaceholder.typicode.com/posts"
                 (inr (JDict [("title", JStr "foo"); ("body", JStr "bar");
                              ("userId", JInt 1); ("id", JInt 101)])))),
     add_sent (route Create) placeholder)
  /\ answer (Update 1) placeholder =
       NetReturn (mkResponse 200 "OK"
                    "https://jsonplaceholder.typicode.com/posts/1"
                    (inr (JDict [("title", JStr "foo");
                                 ("body", JStr "bar updated");
                                 ("userId", JInt 1); ("id", JInt 1)]))).
Proof.
  split.
  - apply (proj1 (success_returns_envelope_unmodified Create placeholder)
             _ eq_refl eq_refl).
  - apply (proj2 (success_returns_envelope_unmodified (Update 1) placeholder)
             _ eq_refl).
Defined.

(** C7. In every world and whatever the outcome (a returned response, an
    error status, an exception that is caught or one that propagates), one
    invocation of an operation makes exactly one call into the HTTP
    library. *)
Theorem one_request_per_call (o : Op) (w : World) :
  List.length (new_requests (call o) w) = 1%nat
  /\ List.length (sent (snd (call o w))) = S (List.length (sent w)).
Proof.
  rewrite new_requests_call, call_sent, length_app. simpl. split; lia.
Qed.

(** C4. In every world each operation sends exactly the request of the route
    table against the one base URL: GET /posts; GET /posts/{id};
    GET /posts/{id}/comments; POST /posts with a payload of keys title, body,
    userId; PUT /posts/{id} with a payload of the same keys; DELETE
    /posts/{id}; the four that carry no payload send none. *)
Theorem requests_follow_route_table (w : World) (i : Z) :
  let base := "https://jsonplaceholder.typicode.com" in
  (forall o, new_requests (call o) w = [route o])
  /\ BASE_URL = base
  /\ new_requests get_posts w = [mkRequest GET (base ++ "/posts") None]
  /\ new_requests (get_post_by_id i) w =
       [mkRequest GET (base ++ "/posts/" ++ str_Z i) None]
  /\ new_requests (get_post_comments i) w =
       [mkRequest GET (base ++ "/posts/" ++ str_Z i ++ "/comments") None]
  /\ (exists q, new_requests post_post w = [q]
                /\ req_method q = POST /\ req_url q = base ++ "/posts"
                /\ payload_keys q = Some ["title"; "body"; "userId"])
  /\ (exists q, new_requests (put_post i) w = [q]
                /\ req_method q = PUT
                /\ req_url q = base ++ "/posts/" ++ str_Z i
                /\ payload_keys q = Some ["title"; "body"; "userId"])
  /\ new_requests (delete_post i) w =
       [mkRequest DELETE (base ++ "/posts/" ++ str_Z i) None].
Proof.
  intros base.
  split; [intros o; apply new_requests_call |].
  split; [reflexivity |].
  split; [exact (new_requests_call FetchCollection w) |].
  split; [exact (new_requests_call (FetchOne i) w) |].
  split; [exact (new_requests_call (FetchComments i) w) |].
  split; [eexists; split; [exact (new_requests_call Create w) |];
          repeat split |].
  split; [eexists; split; [exact (new_requests_call (Update i) w) |];
          repeat split |].
  exact (new_requests_call (Delete i) w).
Qed.

(** C10. Create and update take no payload argument: in any two worlds,
    create builds the same request, with the payload title foo, body bar,
    userId 1, and update of one post identifier builds the same request,
    with the payload title foo, body bar updated, userId 1. *)
Theorem create_update_requests_are_fixed (w1 w2 : World) (i : Z) :
  new_requests post_post w1 = new_requests post_post w2
  /\ new_requests (put_post i) w1 = new_requests (put_post i) w2
  /\ new_requests post_post w1 =
       [mkRequest POST "https://jsonplaceholder.typicode.com/posts"
          (Some (JDict [("title", JStr "foo"); ("body", JStr "bar");
                        ("userId", JInt 1)]))]
  /\ new_requests (put_post i) w1 =
       [mkRequest PUT ("https://jsonplaceholder.typicode.com/posts/" ++ str_Z i)
          (Some (JDict [("title", JStr "foo"); ("body", JStr "bar updated");
                        ("userId", JInt 1)]))].
Proof.
  pose proof (new_requests_call Create) as Hc.
  pose proof (new_requests_call (Update i)) as Hu.
  simpl call in Hc, Hu.
  rewrite !Hc, !Hu. repeat split.
Qed.

(** ** The driver *)

Lemma run_tests_eq (w : World) :
  run_tests w =
  let w' := add_spawned (mkSpawn pytest_cmd true true true) w in
  match os_exec w pytest_cmd with
  | ProcRaise e =>
      if caught_by_CalledProcessError e
      then match e with
           | CalledProcessError _ _ out err =>
               (print [PStr "Tests failed:"] ;;;
                print [PStr "Standard Output:"] ;;;
                print_stream out ;;;
                print [PStr "Standard Error:"] ;;;
                print_stream err) w'
           | Exc _ _ => (Raise e, w')
           end
      else (Raise e, w')
  | ProcExit rc out err =>
      if rc =? 0
      then (Ok tt, add_stdout [PStr out]
                     (add_stdout [PStr "Test Results:"] w'))
      else (Ok tt, add_stdout [PStr err]
                     (add_stdout [PStr "Standard Error:"]
                        (add_stdout [PStr out]
                           (add_stdout [PStr "Standard Output:"]
                              (add_stdout [PStr "Tests failed:"] w')))))
  end.
Proof.
  unfold run_tests, try_except, bind, subprocess_run. fold pytest_cmd.
  destruct (os_exec w pytest_cmd) as [e | rc out err].
  - destruct e; reflexivity.
  - simpl. destruct (rc =? 0); reflexivity.
Qed.

(** C8. [run_tests] spawns one process, pytest with --maxfail=1,
    --disable-warnings and -q, with its output captured.  When the process
    exits with a non-zero status the driver returns normally, having printed
    the captured stdout and stderr under their headings; when it exits with
    status zero the driver prints the captured stdout. *)
Theorem run_tests_reports_captured_output
        (w : World) (rc : Z) (out err : string) :
  os_exec w pytest_cmd = ProcExit rc out err ->
  spawned (snd (run_tests w)) =
    (spawned w ++ [mkSpawn ["pytest"; "--maxfail=1"; "--disable-warnings"; "-q"]
                     true true true])%list
  /\ fst (run_tests w) = Ok tt
  /\ (rc <> 0 ->
      stdout (snd (run_tests w)) =
        (stdout w ++ [[PStr "Tests failed:"]; [PStr "Standard Output:"];
                      [PStr out]; [PStr "Standard Error:"]; [PStr err]])%list)
  /\ (rc = 0 ->
      stdout (snd (run_tests w)) =
        (stdout w ++ [[PStr "Test Results:"]; [PStr out]])%list).
Proof.
  intros H. rewrite run_tests_eq, H. cbv zeta.
  destruct (Z.eqb_spec rc 0) as [E | E]; simpl.
  - split; [reflexivity |]. split; [reflexivity |].
    split; [intros N; contradiction | intros _].
    now rewrite <- !app_assoc.
  - split; [reflexivity |]. split; [reflexivity |].
    split; [intros _ | intros N; contradiction].
    now rewrite <- !app_assoc.
Qed.

Lemma run_tests_reports_captured_output_witness :
  stdout (snd (run_tests placeholder)) =
    [[PStr "Tests failed:"]; [PStr "Standard Output:"];
     [PStr "no tests ran in 1.14s"]; [PStr "Standard Error:"]; [PStr ""]]
  /\ stdout (snd (run_tests all_green)) =
       [[PStr "Test Results:"]; [PStr "5 passed in 1.02s"]].
Proof.
  split.
  - apply (run_tests_reports_captured_output placeholder 5
             "no tests ran in 1.14s" "" eq_refl). discriminate.
  - apply (run_tests_reports_captured_output all_green 0
             "5 passed in 1.02s" "" eq_refl). reflexivity.
Defined.

(** ** The tests *)

(** Printing does not change the answer of the network. *)
Lemma answer_add_stdout (o : Op) (l : list PrintArg) (w : World) :
  answer o (add_stdout l w) = answer o w.
Proof. reflexivity. Qed.

Ltac start_test o w :=
  unfold bind at 1; unfold print at 1; unfold bind at 1;
  rewrite !call_eq, answer_add_stdout;
  destruct (answer o w) as [e | r];
  [ destruct (caught_by_RequestException e); reflexivity
  | destruct (error_status (status_code r)); [reflexivity |] ];
  cbv beta iota zeta delta
    [bind ret raise py_assert deref is_not_None Response_json py_get py_len
     fst snd].

(** The verdict of each test, read off the result of its client call. *)

Lemma test_get_posts_verdict (w : World) :
  fst (test_get_posts w) =
  match fst (call FetchCollection w) with
  | Raise e => Raise e
  | Ok None => Raise (Exc AssertionError "")
  | Ok (Some r) =>
      if status_code r =? 200 then
        match json_body r with
        | inl msg => Raise (Exc JSONDecodeError msg)
        | inr (JList (_ :: _)) => Ok tt
        | inr _ => Raise (Exc AssertionError "")
        end
      else Raise (Exc AssertionError "")
  end.
Proof.
  unfold test_get_posts. change get_posts with (call FetchCollection).
  start_test FetchCollection w.
  destruct (status_code r =? 200); [| reflexivity].
  destruct (json_body r) as [msg | v]; [reflexivity |].
  destruct v as [| b | z | s | l | d]; try reflexivity.
  destruct l; reflexivity.
Qed.

Lemma test_get_post_by_id_verdict (w : World) :
  fst (test_get_post_by_id w) =
  match fst (call (FetchOne 1) w) with
  | Raise e => Raise e
  | Ok None => Raise (Exc AssertionError "")
  | Ok (Some r) =>
      if status_code r =? 200 then
        match json_body r with
        | inl msg => Raise (Exc JSONDecodeError msg)
        | inr (JDict d) =>
            match dict_get d "id" with
            | Some x => if py_eq_int x 1 then Ok tt
                        else Raise (Exc AssertionError "")
            | None => Raise (Exc AssertionError "")
            end
        | inr _ => Raise (Exc AttributeError "object has no attribute 'get'")
        end
      else Raise (Exc AssertionError "")
  end.
Proof.
  unfold test_get_post_by_id. change (get_post_by_id 1) with (call (FetchOne 1)).
  start_test (FetchOne 1) w.
  destruct (status_code r =? 200); [| reflexivity].
  destruct (json_body r) as [msg | v]; [reflexivity |].
  destruct v as [| b | z | s | l | d]; try reflexivity.
  destruct (dict_get d "id") as [x |]; [| reflexivity].
  destruct (py_eq_int x 1); reflexivity.
Qed.

Lemma test_post_post_verdict (w : World) :
  fst (test_post_post w) =
  match fst (call Create w) with
  | Raise e => Raise e
  | Ok None => Raise (Exc AssertionError "")
  | Ok (Some r) =>
      if status_code r =? 201 then
        match json_body r with
        | inl msg => Raise (Exc JSONDecodeError msg)
        | inr (JDict d) =>
            match dict_get d "title" with
            | Some x => if py_eq_str x "foo" then Ok tt
                        else Raise (Exc AssertionError "")
            | None => Raise (Exc AssertionError "")
            end
        | inr _ => Raise (Exc AttributeError "object has no attribute 'get'")
        end
      else Raise (Exc AssertionError "")
  end.
Proof.
  unfold test_post_post. change post_post with (call Create).
  start_test Create w.
  destruct (status_code r =? 201); [| reflexivity].
  destruct (json_body r) as [msg | v]; [reflexivity |].
  destruct v as [| b | z | s | l | d]; try reflexivity.
  destruct (dict_get d "title") as [x |]; [| reflexivity].
  destruct (py_eq_str x "foo"); reflexivity.
Qed.

Lemma test_put_post_verdict (w : World) :
  fst (test_put_post w) =
  match fst (call (Update 1) w) with
  | Raise e => Raise e
  | Ok None => Raise (Exc AssertionError "")
  | Ok (Some r) =>
      if status_code r =? 200 then
        match json_body r with
        | inl msg => Raise (Exc JSONDecodeError msg)
        | inr (JDict d) =>
            match dict_get d "body" with
            | Some x => if py_eq_str x "bar updated" then Ok tt
                        else Raise (Exc AssertionError "")
            | None => Raise (Exc AssertionError "")
            end
        | inr _ => Raise (Exc AttributeError "object has no attribute 'get'")
        end
      else Raise (Exc AssertionError "")
  end.
Proof.
  unfold test_put_post. change (put_post 1) with (call (Update 1)).
  start_test (Update 1) w.
  destruct (status_code r =? 200); [| reflexivity].
  destruct (json_body r) as [msg | v]; [reflexivity |].
  destruct v as [| b | z | s | l | d]; try reflexivity.
  destruct (dict_get d "body") as [x |]; [| reflexivity].
  destruct (py_eq_str x "bar updated"); reflexivity.
Qed.

Lemma test_delete_post_verdict (w : World) :
  fst (test_delete_post w) =
  match fst (call (Delete 1) w) with
  | Raise e => Raise e
  | Ok None => Raise (Exc AssertionError "")
  | Ok (Some dr) =>
      if status_code dr =? 200 then
        match fst (call (FetchOne 1) (after_delete w)) with
        | Raise e => Raise e
        | Ok None => Raise (Exc AssertionError "")
        | Ok (Some gr) =>
            match json_body gr with
            | inl msg => Raise (Exc JSONDecodeError msg)
            | inr _ => Ok tt
            end
        end
      else Raise (Exc AssertionError "")
  end.
Proof.
  unfold test_delete_post.
  change (delete_post 1) with (call (Delete 1)).
  change (get_post_by_id 1) with (call (FetchOne 1)).
  start_test (Delete 1) w.
  destruct (status_code r =? 200); [| reflexivity].
  rewrite !call_eq.
  change (answer (FetchOne 1) (add_sent _ (add_stdout _ w)))
    with (answer (FetchOne 1) (after_delete w)).
  destruct (answer (FetchOne 1) (after_delete w)) as [e | gr].
  - destruct (caught_by_RequestException e); reflexivity.
  - destruct (error_status (status_code gr)); [reflexivity |].
    cbv beta iota zeta delta [print fst snd].
    destruct (json_body gr) as [msg | v]; reflexivity.
Qed.

Lemma py_eq_str_true (x : JValue) (s : string) :
  py_eq_str x s = true -> x = JStr s.
Proof.
  destruct x; simpl; try discriminate.
  intros H. apply String.eqb_eq in H. now subst.
Qed.

(** C3, as the specification words it, fails on the delete test: against a
    service that answers DELETE with 200 and no content the test passes,
    though the body of the delete response has neither a title nor a body
    field. *)
Lemma delete_test_checks_no_body_field :
  fst (call (Delete 1) bare) =
    Ok (Some (deleted_no_content "https://jsonplaceholder.typicode.com/posts/1"))
  /\ body_field
       (deleted_no_content "https://jsonplaceholder.typicode.com/posts/1")
       "title" = None
  /\ body_field
       (deleted_no_content "https://jsonplaceholder.typicode.com/posts/1")
       "body" = None
  /\ passes (test_delete_post bare)
  /\ ~ asserts_status_and_body TDeletePost bare.
Proof.
  assert (P : passes (test_delete_post bare)) by (exists tt; reflexivity).
  repeat (split; [reflexivity |]). split; [exact P |].
  intros H. destruct (H P) as (r & Hr & _ & x & Hx).
  vm_compute in Hr. injection Hr as <-.
  destruct Hx as [Hx | Hx]; discriminate Hx.
Qed.

(** C3, amended. A passing run of any of the five tests had a non-null client
    result whose status code is the expected one (201 for create, 200 for
    the others).  In addition the collection test asserts a non-empty list,
    the single-fetch test a body id equal to 1, the create test the title
    foo, the update test the body text bar updated; the delete test asserts
    no field of a body, only that its follow-up fetch of post 1 returns a
    non-null result. *)
Theorem tests_assert_status_and_body (t : TestCase) (w : World) :
  passes (run_test t w) ->
  exists r, fst (call (test_op t) w) = Ok (Some r)
            /\ status_code r = expected_status t
            /\ asserted_body_check t r
            /\ (t = TDeletePost ->
                exists gr, fst (call (FetchOne 1) (after_delete w))
                           = Ok (Some gr)).
Proof.
  intros [a H]. destruct t; simpl run_test in H; simpl test_op;
    simpl expected_status; unfold asserted_body_check.
  - rewrite test_get_posts_verdict in H.
    destruct (fst (call FetchCollection w)) as [[r |] | e]; try discriminate H.
    exists r. destruct (Z.eqb_spec (status_code r) 200) as [E | E];
      [| discriminate H].
    destruct (json_body r) as [msg | v] eqn:J; [discriminate H |].
    destruct v as [| b | z | s | l | d]; try discriminate H.
    destruct l as [| x l]; [discriminate H |].
    repeat split; [exact E | | discriminate].
    exists (x :: l). split; [reflexivity | discriminate].
  - rewrite test_get_post_by_id_verdict in H.
    destruct (fst (call (FetchOne 1) w)) as [[r |] | e]; try discriminate H.
    exists r. destruct (Z.eqb_spec (status_code r) 200) as [E | E];
      [| discriminate H].
    unfold body_field.
    destruct (json_body r) as [msg | v] eqn:J; [discriminate H |].
    destruct v as [| b | z | s | l | d]; try discriminate H.
    destruct (dict_get d "id") as [x |]; [| discriminate H].
    destruct (py_eq_int x 1) eqn:P; [| discriminate H].
    repeat split; [exact E | | discriminate].
    exists x. split; [reflexivity | exact P].
  - rewrite test_post_post_verdict in H.
    destruct (fst (call Create w)) as [[r |] | e]; try discriminate H.
    exists r. destruct (Z.eqb_spec (status_code r) 201) as [E | E];
      [| discriminate H].
    unfold body_field.
    destruct (json_body r) as [msg | v] eqn:J; [discriminate H |].
    destruct v as [| b | z | s | l | d]; try discriminate H.
    destruct (dict_get d "title") as [x |]; [| discriminate H].
    destruct (py_eq_str x "foo") eqn:P; [| discriminate H].
    apply py_eq_str_true in P. subst x.
    repeat split; [exact E | discriminate].
  - rewrite test_put_post_verdict in H.
    destruct (fst (call (Update 1) w)) as [[r |] | e]; try discriminate H.
    exists r. destruct (Z.eqb_spec (status_code r) 200) as [E | E];
      [| discriminate H].
    unfold body_field.
    destruct (json_body r) as [msg | v] eqn:J; [discriminate H |].
    destruct v as [| b | z | s | l | d]; try discriminate H.
    destruct (dict_get d "body") as [x |]; [| discriminate H].
    destruct (py_eq_str x "bar updated") eqn:P; [| discriminate H].
    apply py_eq_str_true in P. subst x.
    repeat split; [exact E | discriminate].
  - rewrite test_delete_post_verdict in H.
    destruct (fst (call (Delete 1) w)) as [[r |] | e]; try discriminate H.
    exists r. destruct (Z.eqb_spec (status_code r) 200) as [E | E];
      [| discriminate H].
    repeat split; [exact E |]. intros _.
    destruct (fst (call (FetchOne 1) (after_delete w))) as [[gr |] | e];
      try discriminate H.
    now exists gr.
Qed.

Lemma tests_assert_status_and_body_witness :
  passes (run_test TPutPost placeholder)
  /\ exists r, fst (call (Update 1) placeholder) = Ok (Some r)
               /\ status_code r = 200
               /\ body_field r "body" = Some (JStr "bar updated").
Proof.
  assert (P : passes (run_test TPutPost placeholder))
    by (exists tt; reflexivity).
  split; [exact P |].
  destruct (tests_assert_status_and_body TPutPost placeholder P)
    as (r & H1 & H2 & H3 & _).
  exists r. split; [exact H1 |]. split; [exact H2 | exact H3].
Defined.

(** C5. A passing run of the delete test had a non-null delete result of
    status 200, and a follow-up fetch of post 1 that returned normally with
    a non-null result.  Conversely, once the delete result is non-null with
    status 200 and the follow-up result is non-null, the test passes
    whatever the status code of the follow-up result is, provided its
    content decodes (the test prints it); so it does against a service that
    has kept the record. *)
Theorem delete_test_asserts_followup_non_null (w : World) :
  (passes (test_delete_post w) ->
   exists dr gr,
     fst (call (Delete 1) w) = Ok (Some dr)
     /\ status_code dr = 200
     /\ fst (call (FetchOne 1) (after_delete w)) = Ok (Some gr))
  /\ (forall dr gr v,
        fst (call (Delete 1) w) = Ok (Some dr) ->
        status_code dr = 200 ->
        fst (call (FetchOne 1) (after_delete w)) = Ok (Some gr) ->
        json_body gr = inr v ->
        passes (test_delete_post w)).
Proof.
  unfold passes. rewrite test_delete_post_verdict. split.
  - intros [a H].
    destruct (fst (call (Delete 1) w)) as [[dr |] | e]; try discriminate H.
    destruct (Z.eqb_spec (status_code dr) 200) as [E | E]; [| discriminate H].
    destruct (fst (call (FetchOne 1) (after_delete w))) as [[gr |] | e];
      try discriminate H.
    now exists dr, gr.
  - intros dr gr v Hd Hs Hg Hj.
    rewrite Hd, Hs, Hg, Hj. simpl. now exists tt.
Qed.

Lemma delete_test_asserts_followup_non_null_witness :
  (exists dr gr,
     fst (call (Delete 1) placeholder) = Ok (Some dr)
     /\ status_code dr = 200
     /\ fst (call (FetchOne 1) (after_delete placeholder)) = Ok (Some gr))
  /\ fst (call (FetchOne 1) (after_delete via_proxy)) =
       Ok (Some (mkResponse 203 "Non-Authoritative Information"
                   "https://jsonplaceholder.typicode.com/posts/1"
                   (inr post_1)))
  /\ passes (test_delete_post via_proxy).
Proof.
  split; [| split].
  - apply (proj1 (delete_test_asserts_followup_non_null placeholder)).
    exists tt. reflexivity.
  - reflexivity.
  - apply (proj2 (delete_test_asserts_followup_non_null via_proxy)
             (mkResponse 200 "OK"
                "https://jsonplaceholder.typicode.com/posts/1" (inr (JDict [])))
             (mkResponse 203 "Non-Authoritative Information"
                "https://jsonplaceholder.typicode.com/posts/1" (inr post_1))
             post_1); reflexivity.
Defined.

(** C9. No operation decodes the body.  A 2xx response whose content is not
    JSON is returned to the caller, non-null, with nothing logged; decoding
    it afterwards raises the decoder's error, and so the collection test
    ends with that error, not with the assertion on a null result.
    Exceptions outside the request-exception family are not caught: they
    propagate out of the operation and nothing is logged. *)
Theorem undecodable_body_is_not_a_client_failure (o : Op) (w : World) :
  (forall r msg,
     answer o w = NetReturn r ->
     is_2xx (status_code r) = true ->
     json_body r = inl msg ->
     fst (call o w) = Ok (Some r)
     /\ new_log (call o) w = []
     /\ forall w', Response_json r w' = (Raise (Exc JSONDecodeError msg), w'))
  /\ (forall r msg,
        answer FetchCollection w = NetReturn r ->
        status_code r = 200 ->
        json_body r = inl msg ->
        fst (test_get_posts w) = Raise (Exc JSONDecodeError msg))
  /\ (forall e,
        answer o w = NetRaise e ->
        caught_by_RequestException e = false ->
        fst (call o w) = Raise e /\ new_log (call o) w = []).
Proof.
  split; [| split].
  - intros r msg Ha H2 Hj. apply is_2xx_not_error in H2.
    unfold new_log. rewrite (call_success o w r Ha H2). simpl.
    split; [reflexivity |]. split; [apply skipn_all |].
    intros w'. unfold Response_json. now rewrite Hj.
  - intros r msg Ha Hs Hj. rewrite test_get_posts_verdict.
    rewrite (call_success FetchCollection w r Ha).
    + simpl. now rewrite Hs, Hj.
    + apply is_2xx_not_error. rewrite Hs. reflexivity.
  - intros e Ha Hc. unfold new_log. rewrite call_eq, Ha, Hc. simpl.
    split; [reflexivity | apply skipn_all].
Qed.

Lemma undecodable_body_is_not_a_client_failure_witness :
  (fst (call (FetchComments 3) proxied) =
     Ok (Some (html_page
                 "https://jsonplaceholder.typicode.com/posts/3/comments"))
   /\ new_log (call (FetchComments 3)) proxied = [])
  /\ fst (test_get_posts proxied) =
       Raise (Exc JSONDecodeError "Expecting value: line 1 column 1 (char 0)")
  /\ fst (call (FetchComments 3) interrupted) =
       Raise (Exc KeyboardInterrupt "").
Proof.
  split; [| split].
  - destruct (proj1 (undecodable_body_is_not_a_client_failure
                       (FetchComments 3) proxied)
                _ _ eq_refl eq_refl eq_refl) as (H1 & H2 & _).
    split; [exact H1 | exact H2].
  - apply (proj1 (proj2 (undecodable_body_is_not_a_client_failure
                           FetchCollection proxied))
             _ _ eq_refl eq_refl eq_refl).
  - apply (proj2 (proj2 (undecodable_body_is_not_a_client_failure
                           (FetchComments 3) interrupted))
             _ eq_refl eq_refl).
Defined.

(** * Further properties of the notebook *)

(** ** Requests on the wire *)

Lemma has_slash_app (a b : string) :
  has_slash (a ++ b) = has_slash a || has_slash b.
Proof.
  induction a as [| c a IH]; simpl.
  - reflexivity.
  - now rewrite IH, orb_assoc.
Qed.

Lemma has_slash_uint (d : Decimal.uint) :
  has_slash (NilEmpty.string_of_uint d) = false.
Proof.
  induction d; simpl; auto.
Qed.

(** The decimal text of a post identifier has no path separator in it. *)
Lemma has_slash_str_Z (z : Z) : has_slash (str_Z z) = false.
Proof.
  unfold str_Z.
  destruct (Z.to_int z) as [d | d]; simpl;
    destruct d; simpl; auto using has_slash_uint.
Qed.

Lemma cut_at_slash (a b c d : string) :
  has_slash a = false -> has_slash b = false ->
  a ++ String "/" c = b ++ String "/" d -> a = b.
Proof.
  revert b. induction a as [| x a IH]; intros [| y b]; simpl; intros Ha Hb E.
  - reflexivity.
  - injection E as E _. subst y. rewrite Ascii.eqb_refl in Hb. discriminate Hb.
  - injection E as E _. subst x. rewrite Ascii.eqb_refl in Ha. discriminate Ha.
  - injection E as E1 E2. subst y.
    apply orb_false_iff in Ha as [_ Ha]. apply orb_false_iff in Hb as [_ Hb].
    f_equal. now apply IH.
Qed.

Lemma route_inj (o o' : Op) : route o = route o' -> o = o'.
Proof.
  unfold route.
  destruct o as [| i | i | | i | i], o' as [| j | j | | j | j];
    simpl; intros H; try discriminate H; try reflexivity;
    injection H as H.
  - apply str_Z_inj in H. now subst.
  - exfalso. apply (f_equal has_slash) in H.
    rewrite has_slash_app, !has_slash_str_Z in H. discriminate H.
  - exfalso. apply (f_equal has_slash) in H.
    rewrite has_slash_app, !has_slash_str_Z in H. discriminate H.
  - apply cut_at_slash in H; auto using has_slash_str_Z.
    apply str_Z_inj in H. now subst.
  - apply str_Z_inj in H. now subst.
  - apply str_Z_inj in H. now subst.
Qed.

(** X1. What an invocation puts on the wire determines the operation and
    its post identifier: if two invocations, in whatever worlds, send the
    same requests, they are the same function called with the same
    identifier. *)
Theorem requests_identify_operation (o o' : Op) (w w' : World) :
  new_requests (call o) w = new_requests (call o') w' -> o = o'.
Proof.
  rewrite !new_requests_call. intros H. apply route_inj.
  exact (f_equal (hd (route o)) H).
Qed.

Lemma requests_identify_operation_witness :
  new_requests (call (FetchComments 12)) placeholder =
    [mkRequest GET "https://jsonplaceholder.typicode.com/posts/12/comments"
       None]
  /\ FetchComments 12 = FetchComments 12.
Proof.
  split; [reflexivity |].
  apply (requests_identify_operation (FetchComments 12) (FetchComments 12)
           placeholder unreachable).
  reflexivity.
Defined.

(** ** What an operation leaves behind *)

(** X2. In every world an operation logs exactly one record, of level ERROR,
    when it returns null, and logs nothing when it returns a response or
    lets an exception through; it returns null exactly when the answer to
    its request is a request-family exception or an error status. *)
Theorem null_result_iff_one_error_logged (o : Op) (w : World) :
  (fst (call o w) = Ok None <->
   exists m, new_log (call o) w = [mkLog ERROR m])
  /\ (fst (call o w) <> Ok None -> new_log (call o) w = [])
  /\ (fst (call o w) = Ok None <->
      exists msg, request_failure (answer o w) = Some msg).
Proof.
  unfold new_log, request_failure. rewrite call_eq.
  destruct (answer o w) as [e | r].
  - destruct (caught_by_RequestException e); simpl.
    + rewrite skipn_length_app.
      repeat split; eauto; intros; congruence.
    + rewrite skipn_all.
      repeat split; try discriminate; intros [m H]; discriminate H.
  - destruct (error_status (status_code r)); simpl.
    + rewrite skipn_length_app.
      repeat split; eauto; intros; congruence.
    + rewrite skipn_all.
      repeat split; try discriminate; intros [m H]; discriminate H.
Qed.

(** X3. An operation touches nothing but the request trace and the log: it
    prints nothing, spawns no process, leaves the behaviour of the outside
    world as it was, and only appends to the log. *)
Theorem call_leaves_console_and_processes (o : Op) (w : World) :
  stdout (snd (call o w)) = stdout w
  /\ spawned (snd (call o w)) = spawned w
  /\ network (snd (call o w)) = network w
  /\ os_exec (snd (call o w)) = os_exec w
  /\ log (snd (call o w)) = (log w ++ new_log (call o) w)%list.
Proof.
  unfold new_log. rewrite call_eq.
  destruct (answer o w) as [e | r];
    [destruct (caught_by_RequestException e)
    | destruct (error_status (status_code r))];
    simpl; rewrite ?skipn_length_app, ?skipn_all, ?app_nil_r;
    repeat split.
Qed.

Lemma null_result_iff_one_error_logged_witness :
  exists m, new_log (call Create) unreachable = [mkLog ERROR m].
Proof.
  apply (proj1 (proj1 (null_result_iff_one_error_logged Create unreachable))).
  reflexivity.
Defined.

(** ** The tests, branch by branch *)

Ltac break_match :=
  match goal with
  | |- context [match ?x with _ => _ end] =>
      lazymatch x with
      | context [match _ with _ => _ end] => fail
      | _ => destruct x eqn:?
      end
  end.

Ltac open_tests :=
  unfold run_test, test_op, test_banner,
    test_get_posts, test_get_post_by_id, test_post_post, test_put_post,
    test_delete_post;
  change get_posts with (call FetchCollection);
  change post_post with (call Create);
  change (put_post 1) with (call (Update 1));
  change (delete_post 1) with (call (Delete 1));
  change (get_post_by_id 1) with (call (FetchOne 1));
  cbv beta iota zeta delta
    [bind ret raise print py_assert deref is_not_None Response_json py_get
     py_len].

Ltac tidy_traces :=
  cbn [fst snd sent log stdout spawned network os_exec
       add_sent add_log add_stdout after_failure];
  rewrite <- ?app_assoc; cbn [app];
  rewrite ?skipn_length_app, ?skipn_all, ?app_nil_r.

Ltac no_pass :=
  match goal with
  | H : exists _, Raise _ = Ok _ |- _ => destruct H as [? H]; discriminate H
  end.

(** What a test leaves behind, in every branch. *)
Lemma run_test_traces (t : TestCase) (w : World) :
  sent (snd (run_test t w)) = (sent w ++ new_requests (run_test t) w)%list
  /\ log (snd (run_test t w)) = (log w ++ new_log (run_test t) w)%list
  /\ stdout (snd (run_test t w)) = (stdout w ++ new_stdout (run_test t) w)%list
  /\ spawned (snd (run_test t w)) = spawned w
  /\ network (snd (run_test t w)) = network w
  /\ os_exec (snd (run_test t w)) = os_exec w
  /\ (List.length (new_log (run_test t) w) <= 1)%nat
  /\ (new_log (run_test t) w <> [] ->
      fst (run_test t w) = Raise (Exc AssertionError ""))
  /\ (passes (run_test t w) ->
      new_requests (run_test t) w = passing_requests t
      /\ new_log (run_test t) w = [])
  /\ ~ In completion_line (new_stdout (run_test t) w).
Proof.
  unfold new_requests, new_log, new_stdout, passes, passing_requests,
    completion_line.
  destruct t; open_tests;
    repeat (rewrite ?call_eq; break_match; cbn [fst snd]);
    tidy_traces.
  all: repeat split; try reflexivity; try (cbn; lia); try congruence;
       try (intros [a H]; discriminate H); try no_pass;
       try (cbn; intuition discriminate).
Qed.

Lemma run_test_requests (t : TestCase) (w : World) :
  new_requests (run_test t) w =
  match t with
  | TDeletePost =>
      if delete_accepted w
      then [route (Delete 1); route (FetchOne 1)]
      else [route (Delete 1)]
  | _ => [route (test_op t)]
  end.
Proof.
  unfold new_requests, delete_accepted.
  destruct t; open_tests;
    repeat (rewrite ?call_eq, ?answer_add_stdout; break_match; cbn [fst snd]);
    tidy_traces; try reflexivity; try congruence.
Qed.

(** X4. Every test makes its delete, create, update or fetch request
    whatever happens; the delete test goes on to its follow-up fetch exactly
    when the delete returned a non-null result of status 200, and no other
    test makes a second request. *)
Theorem test_requests_made (t : TestCase) (w : World) :
  (t <> TDeletePost -> new_requests (run_test t) w = [route (test_op t)])
  /\ (delete_accepted w = true ->
      new_requests test_delete_post w = [route (Delete 1); route (FetchOne 1)])
  /\ (delete_accepted w = false ->
      new_requests test_delete_post w = [route (Delete 1)]).
Proof.
  split; [| split].
  - intros N. rewrite run_test_requests. destruct t; try reflexivity.
    contradiction.
  - intros H. change test_delete_post with (run_test TDeletePost).
    rewrite run_test_requests. now rewrite H.
  - intros H. change test_delete_post with (run_test TDeletePost).
    rewrite run_test_requests. now rewrite H.
Qed.

Lemma test_requests_made_witness :
  new_requests (run_test TPutPost) unreachable = [route (Update 1)]
  /\ new_requests test_delete_post placeholder =
       [route (Delete 1); route (FetchOne 1)]
  /\ new_requests test_delete_post cached = [route (Delete 1)].
Proof.
  split; [| split].
  - apply (proj1 (test_requests_made TPutPost unreachable)). discriminate.
  - apply (proj1 (proj2 (test_requests_made TDeletePost placeholder))).
    reflexivity.
  - apply (proj2 (proj2 (test_requests_made TDeletePost cached))).
    reflexivity.
Defined.

Lemma run_test_verdict_start (t : TestCase) (w : World) :
  match fst (call (test_op t) w) with
  | Raise e => fst (run_test t w) = Raise e
  | Ok None => fst (run_test t w) = Raise (Exc AssertionError "")
  | Ok (Some r) =>
      status_code r <> expected_status t ->
      fst (run_test t w) = Raise (Exc AssertionError "")
  end.
Proof.
  destruct t; simpl run_test; simpl test_op; simpl expected_status;
    rewrite ?test_get_posts_verdict, ?test_get_post_by_id_verdict,
      ?test_post_post_verdict, ?test_put_post_verdict,
      ?test_delete_post_verdict;
    (match goal with
     | |- context [fst (call ?o w)] =>
         destruct (fst (call o w)) as [[r |] | e]
     end); try reflexivity;
    intros N;
    (match goal with
     | |- context [status_code ?x =? ?c] =>
         destruct (Z.eqb_spec (status_code x) c);
         [contradiction | reflexivity]
     end).
Qed.

(** X5. A test whose client call returned null ends with AssertionError, the
    very first assertion, and never reaches the attribute access on the
    null value; so does a test whose non-null result has another status
    than the expected one; an exception that the client lets through comes
    out of the test unchanged. *)
Theorem test_fails_on_null_or_status (t : TestCase) (w : World) :
  (fst (call (test_op t) w) = Ok None ->
   fst (run_test t w) = Raise (Exc AssertionError ""))
  /\ (forall r, fst (call (test_op t) w) = Ok (Some r) ->
                status_code r <> expected_status t ->
                fst (run_test t w) = Raise (Exc AssertionError ""))
  /\ (forall e, fst (call (test_op t) w) = Raise e ->
                fst (run_test t w) = Raise e).
Proof.
  pose proof (run_test_verdict_start t w) as H.
  split; [| split].
  - intros E. now rewrite E in H.
  - intros r E N. rewrite E in H. now apply H.
  - intros e E. now rewrite E in H.
Qed.

Lemma test_fails_on_null_or_status_witness :
  fst (run_test TPostPost unreachable) = Raise (Exc AssertionError "")
  /\ fst (run_test TPostPost cached) = Raise (Exc AssertionError "")
  /\ fst (run_test TPostPost interrupted) = Raise (Exc KeyboardInterrupt "").
Proof.
  split; [| split].
  - apply (proj1 (test_fails_on_null_or_status TPostPost unreachable)).
    reflexivity.
  - apply (proj1 (proj2 (test_fails_on_null_or_status TPostPost cached))
             (not_modified "https://jsonplaceholder.typicode.com/posts")).
    + reflexivity.
    + discriminate.
  - apply (proj2 (proj2 (test_fails_on_null_or_status TPostPost interrupted))).
    reflexivity.
Defined.



Lemma answer_after_print (o : Op) (q : Request) (l : list PrintArg)
                          (w : World) :
  answer o (add_sent q (add_stdout l w)) = answer o (add_sent q w).
Proof. reflexivity. Qed.

Lemma py_eq_str_refl (s : string) : py_eq_str (JStr s) s = true.
Proof. simpl. apply String.eqb_refl. Qed.

(** X7. For the four tests other than delete, the three asserted conditions
    are also sufficient: the test passes exactly when the client result is
    non-null, has the expected status, and its body meets the test's check
    (a non-empty list; an object whose id equals 1; an object whose title is
    foo; an object whose body is bar updated). *)
Theorem test_passes_iff (t : TestCase) (w : World) :
  t <> TDeletePost ->
  (passes (run_test t w) <->
   exists r, fst (call (test_op t) w) = Ok (Some r)
             /\ status_code r = expected_status t
             /\ asserted_body_check t r).
Proof.
  intros N. unfold passes.
  destruct t; try contradiction; clear N;
    simpl run_test; simpl test_op; simpl expected_status;
    unfold asserted_body_check, body_field;
    rewrite ?test_get_posts_verdict, ?test_get_post_by_id_verdict,
      ?test_post_post_verdict, ?test_put_post_verdict;
    (match goal with
     | |- context [fst (call ?o w)] =>
         destruct (fst (call o w)) as [[r |] | e]
     end);
    try (split; [intros [a H]; discriminate H
                | intros (r' & H & _); discriminate H]);
    (match goal with
     | |- context [status_code ?x =? ?c] =>
         destruct (Z.eqb_spec (status_code x) c) as [E | E]
     end);
    try (split; [intros [a H]; discriminate H
                | intros (r' & H & H' & _); injection H as <-; contradiction]).
  - split.
    + intros [a H]. exists r. split; [reflexivity |]. split; [exact E |].
      destruct (json_body r) as [msg | v]; [discriminate H |].
      destruct v as [| b | z | s | l | d]; try discriminate H.
      destruct l as [| x l]; [discriminate H |].
      exists (x :: l). split; [reflexivity | discriminate].
    + intros (r' & H & _ & l & J & L). injection H as <-. rewrite J.
      destruct l; [contradiction | now exists tt].
  - split.
    + intros [a H]. exists r. split; [reflexivity |]. split; [exact E |].
      destruct (json_body r) as [msg | v]; [discriminate H |].
      destruct v as [| b | z | s | l | d]; try discriminate H.
      destruct (dict_get d "id") as [x |]; [| discriminate H].
      destruct (py_eq_int x 1) eqn:P; [| discriminate H].
      now exists x.
    + intros (r' & H & _ & x & J & P). injection H as <-.
      destruct (json_body r) as [msg | v]; [discriminate J |].
      destruct v as [| b | z | s | l | d]; try discriminate J.
      rewrite J, P. now exists tt.
  - split.
    + intros [a H]. exists r. split; [reflexivity |]. split; [exact E |].
      destruct (json_body r) as [msg | v]; [discriminate H |].
      destruct v as [| b | z | s | l | d]; try discriminate H.
      destruct (dict_get d "title") as [x |]; [| discriminate H].
      destruct (py_eq_str x "foo") eqn:P; [| discriminate H].
      apply py_eq_str_true in P. now subst.
    + intros (r' & H & _ & J). injection H as <-.
      destruct (json_body r) as [msg | v]; [discriminate J |].
      destruct v as [| b | z | s | l | d]; try discriminate J.
      rewrite J, py_eq_str_refl. now exists tt.
  - split.
    + intros [a H]. exists r. split; [reflexivity |]. split; [exact E |].
      destruct (json_body r) as [msg | v]; [discriminate H |].
      destruct v as [| b | z | s | l | d]; try discriminate H.
      destruct (dict_get d "body") as [x |]; [| discriminate H].
      destruct (py_eq_str x "bar updated") eqn:P; [| discriminate H].
      apply py_eq_str_true in P. now subst.
    + intros (r' & H & _ & J). injection H as <-.
      destruct (json_body r) as [msg | v]; [discriminate J |].
      destruct v as [| b | z | s | l | d]; try discriminate J.
      rewrite J, py_eq_str_refl. now exists tt.
Qed.

Lemma test_passes_iff_witness :
  passes (run_test TGetPosts placeholder)
  /\ ~ passes (run_test TGetPosts empty_objects).
Proof.
  split.
  - apply (proj2 (test_passes_iff TGetPosts placeholder
                    ltac:(discriminate))).
    exists (mkResponse 200 "OK" "https://jsonplaceholder.typicode.com/posts"
              (inr (JList [post_1]))).
    split; [reflexivity |]. split; [reflexivity |].
    exists [post_1]. split; [reflexivity | discriminate].
  - intros P.
    apply (proj1 (test_passes_iff TGetPosts empty_objects
                    ltac:(discriminate))) in P.
    destruct P as (r & H & _ & l & J & _).
    injection H as <-. discriminate J.
Defined.

(** X8. What the tests print.  A test other than delete prints its banner
    and nothing else, whatever happens.  A delete test that passes prints
    its banner, then the status code that the follow-up fetch really
    returned, then the decoded content of that response. *)
Theorem test_output (t : TestCase) (w : World) :
  (t <> TDeletePost ->
   new_stdout (run_test t) w = [[PStr (test_banner t)]])
  /\ (t = TDeletePost -> passes (run_test t w) ->
      exists gr v,
        fst (call (FetchOne 1) (after_delete w)) = Ok (Some gr)
        /\ json_body gr = inr v
        /\ new_stdout (run_test t) w =
             [[PStr "Running test_delete_post"];
              [PStr ("Status code after deletion attempt: "
                       ++ str_Z (status_code gr))];
              [PStr "Response content:"; PVal v]]).
Proof.
  split.
  - intros N. unfold new_stdout.
    destruct t; try contradiction; clear N; open_tests;
      repeat (rewrite ?call_eq; break_match; cbn [fst snd]);
      tidy_traces; reflexivity.
  - intros -> P. unfold new_stdout, passes, after_delete in *.
    revert P. open_tests.
    repeat (rewrite ?call_eq, ?answer_add_stdout, ?answer_after_print;
            break_match; cbn [fst snd]);
      intros P; try no_pass.
    eexists _, _. split; [reflexivity |]. split; [eassumption |].
    tidy_traces. reflexivity.
Qed.

Lemma test_output_witness :
  new_stdout (run_test TPutPost) unreachable = [[PStr "Running test_put_post"]]
  /\ exists gr v,
       fst (call (FetchOne 1) (after_delete placeholder)) = Ok (Some gr)
       /\ json_body gr = inr v
       /\ new_stdout (run_test TDeletePost) placeholder =
            [[PStr "Running test_delete_post"];
             [PStr ("Status code after deletion attempt: "
                      ++ str_Z (status_code gr))];
             [PStr "Response content:"; PVal v]].
Proof.
  split.
  - apply (proj1 (test_output TPutPost unreachable)). discriminate.
  - apply (proj2 (test_output TDeletePost placeholder) eq_refl).
    exists tt. reflexivity.
Defined.

(** X9. A test logs at most one record; when it logs one it ends with
    AssertionError, and when it passes it has logged nothing.  It spawns no
    process and only appends to the log and to the console. *)
Theorem test_logs_at_most_once (t : TestCase) (w : World) :
  (List.length (new_log (run_test t) w) <= 1)%nat
  /\ (new_log (run_test t) w <> [] ->
      fst (run_test t w) = Raise (Exc AssertionError ""))
  /\ (passes (run_test t w) -> new_log (run_test t) w = [])
  /\ spawned (snd (run_test t w)) = spawned w
  /\ log (snd (run_test t w)) = (log w ++ new_log (run_test t) w)%list
  /\ stdout (snd (run_test t w)) = (stdout w ++ new_stdout (run_test t) w)%list.
Proof.
  destruct (run_test_traces t w)
    as (_ & Hl & Ho & Hs & _ & _ & H1 & H2 & H3 & _).
  repeat split; try assumption. intros P. now apply H3.
Qed.

Lemma test_logs_at_most_once_witness :
  new_log (run_test TDeletePost) really_deletes =
    [mkLog ERROR
       ("Failed to retrieve post with ID 1: 404 Client Error: Not Found "
        ++ "for url: https://jsonplaceholder.typicode.com/posts/1")]
  /\ fst (run_test TDeletePost really_deletes) = Raise (Exc AssertionError "")
  /\ new_log (run_test TDeletePost) placeholder = [].
Proof.
  split; [reflexivity |]. split.
  - apply (proj1 (proj2 (test_logs_at_most_once TDeletePost really_deletes))).
    discriminate.
  - apply (proj1 (proj2 (proj2 (test_logs_at_most_once TDeletePost
                                   placeholder)))).
    exists tt. reflexivity.
Defined.

(** ** The direct driver *)

Lemma bind_ok {A B} (m : M A) (k : A -> M B) (w w1 : World) (a : A) :
  m w = (Ok a, w1) -> bind m k w = k a w1.
Proof. unfold bind. now intros ->. Qed.

Lemma bind_raise {A B} (m : M A) (k : A -> M B) (w w1 : World) (e : Exn) :
  m w = (Raise e, w1) -> bind m k w = (Raise e, w1).
Proof. unfold bind. now intros ->. Qed.

Lemma fails_fast_print (l : list PrintArg) : fails_fast (print l).
Proof.
  intros w. unfold new_log, new_stdout, print, passes. tidy_traces.
  repeat split; try (cbn; lia); try congruence. intros _. now exists tt.
Qed.

Lemma fails_fast_seq (t : TestCase) (k : M unit) :
  fails_fast k -> fails_fast (run_test t ;;; k).
Proof.
  intros Hk w.
  pose proof (run_test_traces t w) as T.
  unfold new_requests, new_log, new_stdout in *.
  destruct (run_test t w) as [[[] | e] w1] eqn:E; cbn [fst snd] in T;
    destruct T as (_ & Tl & To & _ & _ & _ & T1 & T2 & T3 & T4).
  - rewrite (bind_ok _ _ _ _ _ E).
    destruct T3 as [_ T3]; [now exists tt |].
    rewrite T3, app_nil_r in Tl.
    destruct (Hk w1) as (Kl & Ko & K1 & K2 & K3 & K4).
    unfold new_log, new_stdout in *. rewrite <- Tl.
    remember (skipn (List.length (stdout w)) (stdout w1)) as ps.
    remember (skipn (List.length (stdout w1)) (stdout (snd (k w1)))) as qs.
    assert (F : stdout (snd (k w1)) = (stdout w ++ (ps ++ qs))%list)
      by (rewrite Ko, To, app_assoc; reflexivity).
    rewrite F, skipn_length_app.
    repeat split; try assumption.
    intros H. apply in_app_or in H as [H | H]; [contradiction |].
    now apply K4.
  - rewrite (bind_raise _ _ _ _ _ E). cbn [fst snd].
    repeat split; try assumption.
    + intros [a H]. discriminate H.
    + intros H. contradiction.
Qed.

Lemma direct_run_fails_fast : fails_fast run_individual_tests.
Proof.
  unfold run_individual_tests.
  change test_get_posts with (run_test TGetPosts).
  change test_get_post_by_id with (run_test TGetPostById).
  change test_post_post with (run_test TPostPost).
  change test_put_post with (run_test TPutPost).
  change test_delete_post with (run_test TDeletePost).
  repeat apply fails_fast_seq. apply fails_fast_print.
Qed.

(** A test followed by more: when the whole passes, the test passed, left
    its passing requests behind, and the rest ran in the world it left. *)
Lemma seq_passes (t : TestCase) (k : M unit) (w : World) :
  passes ((run_test t ;;; k) w) ->
  exists w1,
    (run_test t ;;; k) w = k w1
    /\ sent w1 = (sent w ++ passing_requests t)%list
    /\ (exists ps, stdout w1 = (stdout w ++ ps)%list).
Proof.
  intros P. pose proof (run_test_traces t w) as T.
  unfold new_requests, new_log, new_stdout in T.
  destruct (run_test t w) as [[[] | e] w1] eqn:E; cbn [fst snd] in T.
  - exists w1. rewrite (bind_ok _ _ _ _ _ E).
    destruct T as (Ts & _ & To & _ & _ & _ & _ & _ & T3 & _).
    destruct T3 as [T3 _]; [now exists tt |].
    split; [reflexivity |]. split; [now rewrite <- T3 | eauto].
  - rewrite (bind_raise _ _ _ _ _ E) in P. destruct P as [a P].
    discriminate P.
Qed.

Lemma direct_run_pass_world (w : World) :
  passes (run_individual_tests w) ->
  exists w5,
    snd (run_individual_tests w) = add_stdout completion_line w5
    /\ sent w5 =
         (sent w ++ [route FetchCollection; route (FetchOne 1); route Create;
                     route (Update 1); route (Delete 1); route (FetchOne 1)])%list
    /\ (exists ps, stdout w5 = (stdout w ++ ps)%list).
Proof.
  unfold run_individual_tests.
  change test_get_posts with (run_test TGetPosts).
  change test_get_post_by_id with (run_test TGetPostById).
  change test_post_post with (run_test TPostPost).
  change test_put_post with (run_test TPutPost).
  change test_delete_post with (run_test TDeletePost).
  intros P.
  destruct (seq_passes _ _ _ P) as (w1 & E1 & S1 & p1 & O1). rewrite E1 in *.
  destruct (seq_passes _ _ _ P) as (w2 & E2 & S2 & p2 & O2). rewrite E2 in *.
  destruct (seq_passes _ _ _ P) as (w3 & E3 & S3 & p3 & O3). rewrite E3 in *.
  destruct (seq_passes _ _ _ P) as (w4 & E4 & S4 & p4 & O4). rewrite E4 in *.
  destruct (seq_passes _ _ _ P) as (w5 & E5 & S5 & p5 & O5). rewrite E5 in *.
  exists w5. split; [reflexivity |]. split.
  - rewrite S5, S4, S3, S2, S1. cbn [passing_requests test_op].
    now rewrite <- !app_assoc.
  - exists (p1 ++ p2 ++ p3 ++ p4 ++ p5)%list.
    rewrite O5, O4, O3, O2, O1. now rewrite <- !app_assoc.
Qed.

(** X10. A direct run in which all five tests pass has made six requests,
    in this order: GET /posts, GET /posts/1, POST /posts, PUT /posts/1,
    DELETE /posts/1, GET /posts/1; it has logged nothing, and the last line
    it printed is the completion line. *)
Theorem direct_run_passing (w : World) :
  passes (run_individual_tests w) ->
  new_requests run_individual_tests w =
    [route FetchCollection; route (FetchOne 1); route Create;
     route (Update 1); route (Delete 1); route (FetchOne 1)]
  /\ new_log run_individual_tests w = []
  /\ exists ps, new_stdout run_individual_tests w =
                  (ps ++ [[PStr "All tests executed."]])%list.
Proof.
  intros P.
  destruct (direct_run_pass_world w P) as (w5 & E & S & ps & O).
  destruct (direct_run_fails_fast w) as (_ & _ & _ & _ & L & _).
  split; [| split].
  - unfold new_requests. rewrite E. cbn [sent add_stdout]. rewrite S.
    apply skipn_length_app.
  - now apply L.
  - exists ps. unfold new_stdout. rewrite E. cbn [stdout add_stdout].
    rewrite O, <- app_assoc. apply skipn_length_app.
Qed.

Lemma direct_run_passing_witness :
  new_requests run_individual_tests placeholder =
    [route FetchCollection; route (FetchOne 1); route Create;
     route (Update 1); route (Delete 1); route (FetchOne 1)]
  /\ new_log run_individual_tests placeholder = [].
Proof.
  destruct (direct_run_passing placeholder) as (H1 & H2 & _).
  - exists tt. reflexivity.
  - split; [exact H1 | exact H2].
Defined.

(** X11. In every world the direct run logs at most one error record, and
    when it has logged one it ends with AssertionError: a null result stops
    the run at the assertion that follows it. *)
Theorem direct_run_logs_at_most_once (w : World) :
  (List.length (new_log run_individual_tests w) <= 1)%nat
  /\ (new_log run_individual_tests w <> [] ->
      fst (run_individual_tests w) = Raise (Exc AssertionError "")).
Proof.
  destruct (direct_run_fails_fast w) as (_ & _ & H1 & H2 & _).
  split; assumption.
Qed.

Lemma direct_run_logs_at_most_once_witness :
  new_log run_individual_tests really_deletes =
    [mkLog ERROR
       ("Failed to retrieve post with ID 1: 404 Client Error: Not Found "
        ++ "for url: https://jsonplaceholder.typicode.com/posts/1")]
  /\ fst (run_individual_tests really_deletes) =
       Raise (Exc AssertionError "").
Proof.
  split; [reflexivity |].
  apply (proj2 (direct_run_logs_at_most_once really_deletes)). discriminate.
Defined.

(** X12. The direct run prints the completion line exactly when all five
    tests passed: the first test that raises ends the run, and no test
    prints that line itself. *)
Theorem completion_line_iff_all_pass (w : World) :
  In [PStr "All tests executed."] (new_stdout run_individual_tests w)
  <-> passes (run_individual_tests w).
Proof.
  split.
  - destruct (direct_run_fails_fast w) as (_ & _ & _ & _ & _ & H). exact H.
  - intros P. destruct (direct_run_pass_world w P) as (w5 & E & _ & ps & O).
    unfold new_stdout. rewrite E. cbn [stdout add_stdout].
    rewrite O, <- app_assoc, skipn_length_app.
    apply in_or_app. right. now left.
Qed.

Lemma completion_line_iff_all_pass_witness :
  In [PStr "All tests executed."] (new_stdout run_individual_tests placeholder)
  /\ ~ In [PStr "All tests executed."]
          (new_stdout run_individual_tests unreachable).
Proof.
  split.
  - apply (proj2 (completion_line_iff_all_pass placeholder)).
    exists tt. reflexivity.
  - intros H. apply (proj1 (completion_line_iff_all_pass unreachable)) in H.
    destruct H as [a H]. discriminate H.
Defined.

(** X13. When the very first request fails (no network, or an HTTP error
    status), the direct run ends with AssertionError in the first test:
    exactly one request was made, one error logged, only the first banner
    printed, and none of the later tests was started. *)
Theorem direct_run_stops_at_first_failure (w : World) (msg : string) :
  request_failure (answer FetchCollection w) = Some msg ->
  run_individual_tests w =
    (Raise (Exc AssertionError ""),
     after_failure FetchCollection msg
       (add_stdout [PStr "Running test_get_posts"] w)).
Proof.
  intros H. unfold run_individual_tests.
  apply bind_raise. unfold test_get_posts.
  change get_posts with (call FetchCollection).
  unfold bind at 1. unfold print at 1. unfold bind at 1.
  rewrite (call_failure FetchCollection _ msg) by exact H.
  reflexivity.
Qed.

Lemma direct_run_stops_at_first_failure_witness :
  new_requests run_individual_tests unreachable = [route FetchCollection]
  /\ new_stdout run_individual_tests unreachable =
       [[PStr "Running test_get_posts"]].
Proof.
  unfold new_requests, new_stdout.
  rewrite (direct_run_stops_at_first_failure unreachable
             "Max retries exceeded" eq_refl).
  split; reflexivity.
Defined.

Lemma requests_within_seq (t : TestCase) (k : M unit) (l : list Request) :
  requests_within k l ->
  requests_within (run_test t ;;; k) (passing_requests t ++ l).
Proof.
  intros Hk w.
  pose proof (run_test_traces t w) as T.
  pose proof (run_test_requests t w) as R.
  unfold new_requests, new_log, new_stdout in *.
  destruct (run_test t w) as [[[] | e] w1] eqn:E; cbn [fst snd] in T, R;
    destruct T as (Ts & _ & _ & _ & _ & _ & _ & _ & T3 & _).
  - rewrite (bind_ok _ _ _ _ _ E).
    destruct T3 as [T3 _]; [now exists tt |].
    destruct (Hk w1) as (Ks & rest & Kr). unfold new_requests in *.
    remember (skipn (List.length (sent w1)) (sent (snd (k w1)))) as qs.
    assert (F : sent (snd (k w1)) = (sent w ++ (passing_requests t ++ qs))%list)
      by (rewrite Ks, Ts, T3, app_assoc; reflexivity).
    rewrite F, skipn_length_app. split; [reflexivity |].
    exists rest. now rewrite Kr, app_assoc.
  - rewrite (bind_raise _ _ _ _ _ E). cbn [fst snd].
    split; [exact Ts |]. rewrite R.
    destruct t; cbn [passing_requests test_op];
      try (eexists; reflexivity).
    destruct (delete_accepted w); eexists; reflexivity.
Qed.

Lemma seq_requests_start (t : TestCase) (k : M unit) (l : list Request)
                           (w : World) :
  requests_within k l ->
  exists qs, new_requests (run_test t ;;; k) w =
             (new_requests (run_test t) w ++ qs)%list.
Proof.
  intros Hk.
  pose proof (run_test_traces t w) as T.
  unfold new_requests in *.
  destruct (run_test t w) as [[[] | e] w1] eqn:E; cbn [fst snd] in T;
    destruct T as (Ts & _).
  - rewrite (bind_ok _ _ _ _ _ E).
    destruct (Hk w1) as (Ks & _). unfold new_requests in Ks.
    remember (skipn (List.length (sent w)) (sent w1)) as ps.
    remember (skipn (List.length (sent w1)) (sent (snd (k w1)))) as qs.
    exists qs. cbn [snd]. rewrite <- Heqps, Ks, Ts, <- app_assoc.
    apply skipn_length_app.
  - rewrite (bind_raise _ _ _ _ _ E). cbn [fst snd].
    exists []. now rewrite app_nil_r.
Qed.

Lemma later_tests_requests_within :
  requests_within
    (run_test TGetPostById ;;; run_test TPostPost ;;; run_test TPutPost ;;;
     run_test TDeletePost ;;; print [PStr "All tests executed."])
    (passing_requests TGetPostById ++ passing_requests TPostPost
     ++ passing_requests TPutPost ++ passing_requests TDeletePost ++ []).
Proof.
  repeat apply requests_within_seq.
  intros w. unfold new_requests, print. tidy_traces.
  split; [reflexivity | now exists []].
Qed.

Lemma direct_run_requests_within :
  requests_within run_individual_tests full_run_requests.
Proof.
  exact (requests_within_seq TGetPosts _ _ later_tests_requests_within).
Qed.

(** X14. In every world, pass or fail, the requests of the direct run are an
    initial part of GET /posts, GET /posts/1, POST /posts, PUT /posts/1,
    DELETE /posts/1, GET /posts/1: at least one and at most six, never out
    of order, and never a request for the comments of a post, which no test
    exercises. *)
Theorem direct_run_requests_prefix (w : World) :
  (exists rest,
     [route FetchCollection; route (FetchOne 1); route Create;
      route (Update 1); route (Delete 1); route (FetchOne 1)] =
     (new_requests run_individual_tests w ++ rest)%list)
  /\ (1 <= List.length (new_requests run_individual_tests w) <= 6)%nat
  /\ (forall i, ~ In (route (FetchComments i))
                     (new_requests run_individual_tests w)).
Proof.
  destruct (direct_run_requests_within w) as (_ & rest & H).
  unfold full_run_requests in H.
  assert (N : new_requests run_individual_tests w <> []).
  { destruct (seq_requests_start TGetPosts _ _ w later_tests_requests_within)
      as [qs Q].
    change (new_requests run_individual_tests w =
            (new_requests (run_test TGetPosts) w ++ qs)%list) in Q.
    rewrite Q, run_test_requests. discriminate. }
  split; [eauto |]. split.
  - apply (f_equal (@List.length _)) in H. rewrite length_app in H.
    cbn [List.length] in H.
    destruct (new_requests run_individual_tests w); [contradiction |].
    cbn [List.length] in *. lia.
  - intros i I.
    assert (J : In (route (FetchComments i))
                  [route FetchCollection; route (FetchOne 1); route Create;
                   route (Update 1); route (Delete 1); route (FetchOne 1)])
      by (rewrite H; apply in_or_app; now left).
    cbn [In] in J.
    repeat (destruct J as [J | J]; [apply route_inj in J; discriminate J |]).
    exact J.
Qed.

(** ** The pytest driver, again *)

(** X15. When spawning pytest itself raises, as it does when pytest is not
    installed, [run_tests] does not catch it: the exception comes out of the
    driver and nothing has been printed. *)
Theorem run_tests_spawn_failure_propagates (w : World) (e : Exn) :
  os_exec w pytest_cmd = ProcRaise e ->
  caught_by_CalledProcessError e = false ->
  run_tests w = (Raise e, add_spawned (mkSpawn pytest_cmd true true true) w)
  /\ new_stdout run_tests w = [].
Proof.
  intros H C. unfold new_stdout. rewrite run_tests_eq, H, C. cbv zeta.
  split; [reflexivity |]. cbn. apply skipn_all.
Qed.

Lemma run_tests_spawn_failure_propagates_witness :
  fst (run_tests no_pytest) =
    Raise (Exc FileNotFoundError "[Errno 2] No such file or directory: 'pytest'")
  /\ new_stdout run_tests no_pytest = [].
Proof.
  destruct (run_tests_spawn_failure_propagates no_pytest _ eq_refl eq_refl)
    as [H1 H2].
  split; [now rewrite H1 | exact H2].
Defined.

(** X16. In every world the pytest driver spawns exactly one process, makes
    no HTTP request of its own and logs nothing; a failure of the tests
    never makes it raise: it returns normally whenever the process ran to
    completion, whatever its exit status. *)
Theorem run_tests_only_spawns (w : World) :
  new_spawned run_tests w = [mkSpawn pytest_cmd true true true]
  /\ sent (snd (run_tests w)) = sent w
  /\ log (snd (run_tests w)) = log w
  /\ (forall rc out err, os_exec w pytest_cmd = ProcExit rc out err ->
                         fst (run_tests w) = Ok tt).
Proof.
  unfold new_spawned. rewrite run_tests_eq. cbv zeta.
  destruct (os_exec w pytest_cmd) as [e | rc out err].
  - destruct e as [c msg | rc cmd [out |] [err |]]; cbn;
      rewrite ?skipn_length_app; repeat split; discriminate.
  - destruct (rc =? 0); cbn; rewrite ?skipn_length_app; repeat split.
Qed.

Lemma run_tests_only_spawns_witness :
  fst (run_tests placeholder) = Ok tt.
Proof.
  apply (proj2 (proj2 (proj2 (run_tests_only_spawns placeholder)))
           5 "no tests ran in 1.14s" "").
  reflexivity.
Defined.
